(** * Aura license keys: the key codec and the machine fingerprint

    A shallow embedding of [Source/Licensing/license_generator.py]
    ([compute_signature], [generate_key], [validate_key]) and of the
    machine-id derivation of [Source/Licensing/verify_keys.py], together
    with the parts of the Python runtime these functions call:
    [str.upper], [str.strip], [str.ljust], slicing and indexing,
    [str.encode('utf-8')], [re.search] for the one pattern used, and
    [hashlib.md5].  Of [main] the three modes run from the command line
    are embedded (validation, batch, single key), and of verify_keys.py
    also the secret rebuilt from its fragments and the test keys; the
    interactive mode is left out.

    A Python [str] is a sequence of code points, so it is modelled as a
    list of numbers; exceptions are values of an error type.  The Unicode
    case table of the interpreter is a parameter of [str.upper]; on ASCII,
    where the key format lives, upper-casing is written out. *)

From Stdlib Require Import Arith NArith ZArith Ascii String Decimal DecimalString
  DecimalPos DecimalN Bool Lia List.
Import ListNotations.

Local Open Scope N_scope.

(** ** Strings, bytes and exceptions *)

Definition codepoint := N.
Definition str := list codepoint.
Definition bytes := list N.

(** A string literal of the source, as the code points of its characters. *)
Definition lit (s : string) : str := map N_of_ascii (list_ascii_of_string s).

(** The exceptions the code can meet.  [ValueError] stands for the one
    [generate_key] raises itself; [UnicodeEncodeError] (in Python a
    subclass of [ValueError]) carries the index of the first character
    that cannot be encoded.  [FileNotFoundError] and [UnicodeDecodeError]
    are what [subprocess.run] raises when the program cannot be started
    and when its output is not text in the expected encoding. *)
Inductive exn : Type :=
| ValueError (msg : str)
| AssertionError (msg : str)
| UnicodeEncodeError (position : nat)
| IndexError
| FileNotFoundError
| UnicodeDecodeError (position : nat).

Inductive result (A : Type) : Type :=
| Ok (a : A)
| Raise (e : exn).
Arguments Ok {A} a.
Arguments Raise {A} e.

Definition bind {A B} (r : result A) (k : A -> result B) : result B :=
  match r with
  | Ok a => k a
  | Raise e => Raise e
  end.

Notation "x <- r ;; k" := (bind r (fun x => k))
  (at level 61, r at next level, right associativity).

(** ** The Python builtins used by the licensing code *)

Module Py.

Definition len (s : str) : N := N.of_nat (length s).

(** [s[:n]] and [s[a:b]]: slices never raise, they clip. *)
Definition slice_to (n : nat) (s : str) : str := firstn n s.
Definition slice (a b : nat) (s : str) : str := firstn (b - a) (skipn a s).

(** [s[i]] raises [IndexError] out of range. *)
Definition index (s : str) (i : nat) : result codepoint :=
  match nth_error s i with
  | Some c => Ok c
  | None => Raise IndexError
  end.

Fixpoint startswith (s p : str) : bool :=
  match p, s with
  | [], _ => true
  | _ :: _, [] => false
  | a :: p', b :: s' => (a =? b) && startswith s' p'
  end.

Fixpoint str_eqb (s t : str) : bool :=
  match s, t with
  | [], [] => true
  | a :: s', b :: t' => (a =? b) && str_eqb s' t'
  | _, _ => false
  end.

(** [s.ljust(width)]: pad on the right with spaces. *)
Definition ljust (width : nat) (s : str) : str :=
  s ++ repeat 32 (width - length s).

(** [str.isspace] for one character (CPython's [_PyUnicode_IsWhitespace]). *)
Definition isspace (c : codepoint) : bool :=
  ((9 <=? c) && (c <=? 13)) || ((28 <=? c) && (c <=? 32))
  || (c =? 0x85) || (c =? 0xA0) || (c =? 0x1680)
  || ((0x2000 <=? c) && (c <=? 0x200A))
  || (c =? 0x2028) || (c =? 0x2029) || (c =? 0x202F)
  || (c =? 0x205F) || (c =? 0x3000).

Fixpoint lstrip (s : str) : str :=
  match s with
  | [] => []
  | c :: s' => if isspace c then lstrip s' else s
  end.

Definition rstrip (s : str) : str := rev (lstrip (rev s)).

Definition strip (s : str) : str := rstrip (lstrip s).

(** [str.upper] works character by character.  On ASCII it maps [a-z] to
    [A-Z]; elsewhere it follows the Unicode case tables (one character
    may become several), which belong to the interpreter and are taken
    as the parameter [table]. *)
Definition ascii_upper (c : codepoint) : codepoint :=
  if (97 <=? c) && (c <=? 122) then c - 32 else c.

Definition upper_char (table : codepoint -> str) (c : codepoint) : str :=
  if c <? 128 then [ascii_upper c] else table c.

Definition upper (table : codepoint -> str) (s : str) : str :=
  flat_map (upper_char table) s.

(** [str(n)] for a non-negative integer, as used by f-strings. *)
Definition str_of_int (n : N) : str :=
  lit (NilZero.string_of_uint (N.to_uint n)).

(** [s.encode('utf-8')]: surrogates (and nothing else among code points)
    cannot be encoded. *)
Definition utf8_char (c : codepoint) : option bytes :=
  if c <? 0x80 then Some [c]
  else if c <? 0x800 then
    Some [0xC0 + c / 64; 0x80 + c mod 64]
  else if c <? 0x10000 then
    if (0xD800 <=? c) && (c <=? 0xDFFF) then None
    else Some [0xE0 + c / 4096; 0x80 + (c / 64) mod 64; 0x80 + c mod 64]
  else if c <? 0x110000 then
    Some [0xF0 + c / 262144; 0x80 + (c / 4096) mod 64;
          0x80 + (c / 64) mod 64; 0x80 + c mod 64]
  else None.

Fixpoint encode_from (pos : nat) (s : str) : result bytes :=
  match s with
  | [] => Ok []
  | c :: s' =>
      match utf8_char c with
      | None => Raise (UnicodeEncodeError pos)
      | Some bs => rest <- encode_from (S pos) s' ;; Ok (bs ++ rest)
      end
  end.

Definition encode_utf8 (s : str) : result bytes := encode_from 0 s.

End Py.

(** ** [hashlib.md5] (RFC 1321) on 32-bit words *)

Module Hashlib.

Definition wrap32 (x : N) : N := x mod 0x100000000.

Definition add32 (x y : N) : N := wrap32 (x + y).

Definition not32 (x : N) : N := N.lxor (wrap32 x) 0xFFFFFFFF.

Definition rotl32 (x : N) (s : N) : N :=
  wrap32 (N.lor (N.shiftl (wrap32 x) s) (N.shiftr (wrap32 x) (32 - s))).

Definition shifts : list N :=
  [7; 12; 17; 22; 7; 12; 17; 22; 7; 12; 17; 22; 7; 12; 17; 22;
   5; 9; 14; 20; 5; 9; 14; 20; 5; 9; 14; 20; 5; 9; 14; 20;
   4; 11; 16; 23; 4; 11; 16; 23; 4; 11; 16; 23; 4; 11; 16; 23;
   6; 10; 15; 21; 6; 10; 15; 21; 6; 10; 15; 21; 6; 10; 15; 21].

Definition sines : list N :=
  [0xd76aa478; 0xe8c7b756; 0x242070db; 0xc1bdceee;
   0xf57c0faf; 0x4787c62a; 0xa8304613; 0xfd469501;
   0x698098d8; 0x8b44f7af; 0xffff5bb1; 0x895cd7be;
   0x6b901122; 0xfd987193; 0xa679438e; 0x49b40821;
   0xf61e2562; 0xc040b340; 0x265e5a51; 0xe9b6c7aa;
   0xd62f105d; 0x02441453; 0xd8a1e681; 0xe7d3fbc8;
   0x21e1cde6; 0xc33707d6; 0xf4d50d87; 0x455a14ed;
   0xa9e3e905; 0xfcefa3f8; 0x676f02d9; 0x8d2a4c8a;
   0xfffa3942; 0x8771f681; 0x6d9d6122; 0xfde5380c;
   0xa4beea44; 0x4bdecfa9; 0xf6bb4b60; 0xbebfbc70;
   0x289b7ec6; 0xeaa127fa; 0xd4ef3085; 0x04881d05;
   0xd9d4d039; 0xe6db99e5; 0x1fa27cf8; 0xc4ac5665;
   0xf4292244; 0x432aff97; 0xab9423a7; 0xfc93a039;
   0x655b59c3; 0x8f0ccc92; 0xffeff47d; 0x85845dd1;
   0x6fa87e4f; 0xfe2ce6e0; 0xa3014314; 0x4e0811a1;
   0xf7537e82; 0xbd3af235; 0x2ad7d2bb; 0xeb86d391].

Record state : Type := State { sA : N; sB : N; sC : N; sD : N }.

Definition init : state :=
  State 0x67452301 0xefcdab89 0x98badcfe 0x10325476.

(** The round function and the index of the message word for step [i]. *)
Definition mix (i : N) (b c d : N) : N :=
  if i <? 16 then N.lor (N.land b c) (N.land (not32 b) d)
  else if i <? 32 then N.lor (N.land d b) (N.land (not32 d) c)
  else if i <? 48 then N.lxor b (N.lxor c d)
  else N.lxor c (N.lor b (not32 d)).

Definition word_index (i : N) : N :=
  if i <? 16 then i
  else if i <? 32 then (5 * i + 1) mod 16
  else if i <? 48 then (3 * i + 5) mod 16
  else (7 * i) mod 16.

Definition step (m : list N) (st : state) (i : N) : state :=
  let f := mix i (sB st) (sC st) (sD st) in
  let g := nth (N.to_nat (word_index i)) m 0 in
  let k := nth (N.to_nat i) sines 0 in
  let s := nth (N.to_nat i) shifts 0 in
  let f' := add32 (add32 (add32 f (sA st)) k) g in
  State (sD st) (add32 (sB st) (rotl32 f' s)) (sB st) (sC st).

Definition steps : list N := map N.of_nat (seq 0 64).

Definition compress (st : state) (m : list N) : state :=
  let r := fold_left (step m) steps st in
  State (add32 (sA st) (sA r)) (add32 (sB st) (sB r))
        (add32 (sC st) (sC r)) (add32 (sD st) (sD r)).

(** Padding: a 1 bit, zeros up to 56 mod 64, the bit length on 64 bits. *)
Definition le_bytes (n : nat) (x : N) : bytes :=
  map (fun i => (x / 2 ^ (8 * N.of_nat i)) mod 256) (seq 0 n).

Definition pad (msg : bytes) : bytes :=
  let n := length msg in
  let zeros := ((64 - (n + 9) mod 64) mod 64)%nat in
  msg ++ [0x80] ++ repeat 0 zeros
      ++ le_bytes 8 ((8 * N.of_nat n) mod 2 ^ 64).

Definition le_word (bs : bytes) : N :=
  fold_right (fun b acc => b mod 256 + 256 * acc) 0 bs.

(** Cut a byte string into 64-byte blocks of sixteen words each. *)
Fixpoint blocks (fuel : nat) (bs : bytes) : list (list N) :=
  match fuel, bs with
  | O, _ => []
  | _, [] => []
  | S fuel', _ =>
      map (fun j => le_word (firstn 4 (skipn (4 * j) bs))) (seq 0 16)
        :: blocks fuel' (skipn 64 bs)
  end.

Definition digest_state (msg : bytes) : state :=
  let p := pad msg in
  fold_left compress (blocks (length p) p) init.

Definition digest (msg : bytes) : bytes :=
  let st := digest_state msg in
  le_bytes 4 (sA st) ++ le_bytes 4 (sB st)
    ++ le_bytes 4 (sC st) ++ le_bytes 4 (sD st).

Definition hex_digit (n : N) : codepoint :=
  if n <? 10 then 48 + n else 87 + n.

Definition hex_byte (b : N) : str :=
  [hex_digit ((b / 16) mod 16); hex_digit (b mod 16)].

(** [hashlib.md5(data).hexdigest()]: 32 lower-case hexadecimal digits. *)
Definition md5_hexdigest (msg : bytes) : str :=
  flat_map hex_byte (digest msg).

End Hashlib.

(** ** [re.search] for the volume-serial pattern and [int(_, 16)] *)

Module Re.

Definition is_hex (c : codepoint) : bool :=
  ((48 <=? c) && (c <=? 57)) || ((65 <=? c) && (c <=? 70))
  || ((97 <=? c) && (c <=? 102)).

(** The pattern [([0-9A-Fa-f]{4})-([0-9A-Fa-f]{4})] matched at the start
    of [s]; the result holds the two groups. *)
Definition match_here (s : str) : option (str * str) :=
  match s with
  | a :: b :: c :: d :: dash :: e :: f :: g :: h :: _ =>
      if forallb is_hex [a; b; c; d] && (dash =? 45)
         && forallb is_hex [e; f; g; h]
      then Some ([a; b; c; d], [e; f; g; h])
      else None
  | _ => None
  end.

(** [re.search]: the leftmost position where the pattern matches. *)
Fixpoint search (s : str) : option (str * str) :=
  match match_here s with
  | Some groups => Some groups
  | None =>
      match s with
      | [] => None
      | _ :: s' => search s'
      end
  end.

Definition hex_value (c : codepoint) : N :=
  if c <=? 57 then c - 48
  else if c <=? 70 then c - 55
  else c - 87.

(** [int(s, 16)] on a string of hexadecimal digits. *)
Definition int16 (s : str) : N :=
  fold_left (fun acc c => 16 * acc + hex_value c) s 0.

End Re.

(** ** The licensing code *)

Section Licensing.

(** The interpreter's upper-case mapping of the characters outside ASCII. *)
Variable table : codepoint -> str.

Local Abbreviation upper := (Py.upper table).

(** *** license_generator.py *)

Definition SECRET : str := lit "AuRa_Eq_2026_LiCeNsE_kEy_SeCrEt_V2".

Definition compute_signature (customer_id machine_id : str) : result str :=
  let input_str := SECRET ++ lit "-" ++ customer_id ++ lit "-" ++ machine_id in
  data <- Py.encode_utf8 input_str ;;
  let md5_hash := Hashlib.md5_hexdigest data in
  Ok (upper (Py.slice_to 8 md5_hash)).

Definition generate_key (customer_id machine_id : str) : result str :=
  let cid := Py.slice_to 4 (Py.ljust 4 (upper customer_id)) in
  let mid := upper machine_id in
  if Py.len mid <? 4 then
    Raise (ValueError
             (lit "Machine-ID muss mindestens 4 Zeichen haben (erhalten: '"
                ++ mid ++ lit "')"))
  else
    let machine_prefix := Py.slice_to 4 mid in
    signature <- compute_signature cid mid ;;
    let key := lit "AURA-" ++ cid ++ lit "-" ++ machine_prefix
                   ++ lit "-" ++ signature in
    if Py.len key =? 23 then Ok key
    else
      Raise (AssertionError
               (lit "Key-Laenge falsch: " ++ Py.str_of_int (Py.len key)
                  ++ lit " statt 23")).

(** Python's [a or b] on conditions that may raise: [b] is evaluated only
    when [a] is false. *)
Definition or_else (a b : result bool) : result bool :=
  x <- a ;; if x then Ok true else b.

Definition differs_at (s : str) (i : nat) (c : codepoint) : result bool :=
  x <- Py.index s i ;; Ok (negb (x =? c)).

Definition msg_prefix : str := lit "Key muss mit 'AURA-' beginnen".

Definition msg_length (key : str) : str :=
  lit "Ungueltige Key-Laenge (erwartet 23, erhalten "
    ++ Py.str_of_int (Py.len key) ++ lit ")".

Definition msg_separators : str := lit "Ungueltige Trennzeichen-Positionen".

Definition msg_machine (machine_prefix machine_id : str) : str :=
  lit "Machine-ID stimmt nicht (" ++ machine_prefix ++ lit " != "
    ++ Py.slice_to 4 machine_id ++ lit ")".

Definition msg_signature (expected signature : str) : str :=
  lit "Signatur ungueltig (erwartet " ++ expected ++ lit ", erhalten "
    ++ signature ++ lit ")".

Definition msg_valid (machine_id customer_id : str) : str :=
  lit "Key gueltig fuer Machine " ++ machine_id ++ lit " (Kunde: "
    ++ customer_id ++ lit ")".

Definition validate_key (key machine_id : str) : result (bool * str) :=
  let key := Py.strip (upper key) in
  let machine_id := Py.strip (upper machine_id) in
  if negb (Py.startswith key (lit "AURA-")) then Ok (false, msg_prefix)
  else if negb (Py.len key =? 23) then Ok (false, msg_length key)
  else
    bad <- or_else (differs_at key 4 45)
             (or_else (differs_at key 9 45) (differs_at key 14 45)) ;;
    if bad then Ok (false, msg_separators)
    else
      let customer_id := Py.slice 5 9 key in
      let machine_prefix := Py.slice 10 14 key in
      let signature := Py.slice 15 23 key in
      if negb (Py.str_eqb machine_prefix (Py.slice_to 4 machine_id)) then
        Ok (false, msg_machine machine_prefix machine_id)
      else
        expected <- compute_signature customer_id machine_id ;;
        if negb (Py.str_eqb signature expected) then
          Ok (false, msg_signature expected signature)
        else Ok (true, msg_valid machine_id customer_id).

(** *** verify_keys.py, machine id generation

    [computer_name] is what [platform.node()] returned and [stdout] is
    the captured output of the [vol] command. *)

Definition serial_num (stdout : str) : N :=
  match Re.search stdout with
  | Some (g1, g2) => Re.int16 (g1 ++ g2)
  | None => 0
  end.

Definition fingerprint (computer_name stdout : str) : str :=
  computer_name ++ lit "|" ++ Py.str_of_int (serial_num stdout)
    ++ lit "|AuRa_HW_v2".

Definition machine_id (computer_name stdout : str) : result str :=
  data <- Py.encode_utf8 (fingerprint computer_name stdout) ;;
  Ok (upper (Py.slice_to 8 (Hashlib.md5_hexdigest data))).

(** Lines 29-35 as they run: [run] is how the call of [subprocess.run]
    on line 30 ends, with the captured output or with an exception, which
    nothing catches. *)
Definition machine_id_generation (computer_name : str) (run : result str)
  : result str :=
  stdout <- run ;;
  machine_id computer_name stdout.

End Licensing.

(** ** The command line of license_generator.py *)

(** What [str(n)], [format(i, "04d")] and [range(a, b)] give on integers. *)
Definition str_of_Z (z : Z) : str :=
  if (z <? 0)%Z then lit "-" ++ Py.str_of_int (Z.abs_N z)
  else Py.str_of_int (Z.abs_N z).

Definition format_04d (i : Z) : str :=
  let digits := Py.str_of_int (Z.abs_N i) in
  if (i <? 0)%Z then lit "-" ++ repeat 48 (3 - length digits) ++ digits
  else repeat 48 (4 - length digits) ++ digits.

Definition range (a b : Z) : list Z :=
  map (fun k => (a + Z.of_nat k)%Z) (seq 0 (Z.to_nat (b - a))).

(** The namespace [parse_args] returns: [--machine], [--customer]
    (default ["0001"]), [--batch], [--validate], [--start] (default 1). *)
Record Namespace : Type := {
  machine : option str;
  customer : str;
  batch : option Z;
  validate : option str;
  start : Z
}.

(** How a run of [main] ends: [sys.exit(code)], an exception nobody
    catches, or the interactive mode, which is not modelled. *)
Inductive ending : Type :=
| SystemExit (code : Z)
| Uncaught (e : exn)
| InteractiveMode.

(** Truth values of [if args.x]: [None], the empty string and 0 are
    false. *)
Definition given (o : option str) : option str :=
  match o with
  | Some (c :: s) => Some (c :: s)
  | _ => None
  end.

Definition count (o : option Z) : option Z :=
  match o with
  | Some z => if (z =? 0)%Z then None else Some z
  | None => None
  end.

Definition rule : str := repeat 61 60.

(** [print(line)] after the lines [out] have been written.  The standard
    output is taken to encode as UTF-8 with the error handler [strict],
    the default of Python 3: a line holding a lone surrogate is not
    written and [print] raises [UnicodeEncodeError], which [main] does
    not catch; otherwise the run goes on with one more line. *)
Definition print (out : list str) (line : str)
    (next : list str -> list str * ending) : list str * ending :=
  match Py.encode_utf8 line with
  | Ok _ => next (out ++ [line])
  | Raise e => (out, Uncaught e)
  end.

Section CommandLine.

Variable table : codepoint -> str.

Local Abbreviation upper := (Py.upper table).

(** The loop of the batch mode, from the lines printed so far. *)
Fixpoint batch_loop (machine_id : str) (customers : list Z) (out : list str)
  : list str * ending :=
  match customers with
  | [] => (out, SystemExit 0)
  | i :: rest =>
      let cid := format_04d i in
      match generate_key table cid machine_id with
      | Raise e => (out, Uncaught e)
      | Ok key =>
          print out (lit "  Kunde " ++ cid ++ lit ": " ++ key)
            (batch_loop machine_id rest)
      end
  end.

(** [main] after [parse_args], up to the interactive mode: the lines
    written to the standard output, in order, and the way the run ends. *)
Definition main (args : Namespace) : list str * ending :=
  match given (validate args) with
  | Some key =>
      match given (machine args) with
      | None =>
          print [] (lit "FEHLER: --machine erforderlich fuer Validierung")
            (fun out => (out, SystemExit 1))
      | Some machine_id =>
          match validate_key table key machine_id with
          | Raise e => ([], Uncaught e)
          | Ok (is_valid, msg) =>
              print []
                ((if is_valid then lit "GUELTIG" else lit "UNGUELTIG")
                   ++ lit ": " ++ msg)
                (fun out => (out, SystemExit (if is_valid then 0 else 1)))
          end
      end
  | None =>
      match count (batch args), given (machine args) with
      | Some n, Some machine_id =>
          print [] ([10] ++ rule) (fun out =>
          print out
            (lit "Batch: " ++ str_of_Z n ++ lit " Keys fuer Machine "
               ++ upper machine_id) (fun out =>
          print out (rule ++ [10]) (fun out =>
          batch_loop machine_id (range (start args) (start args + n)) out)))
      | _, _ =>
          match given (machine args) with
          | Some machine_id =>
              match generate_key table (customer args) machine_id with
              | Raise e => ([], Uncaught e)
              | Ok key =>
                  print [] ([10] ++ lit "Generierter Key: " ++ key) (fun out =>
                  print out
                    (lit "  Kunde:      "
                       ++ Py.slice_to 4 (Py.ljust 4 (upper (customer args))))
                    (fun out =>
                  print out (lit "  Machine:    " ++ upper machine_id)
                    (fun out =>
                  print out
                    (lit "  Key-Laenge: " ++ Py.str_of_int (Py.len key))
                    (fun out =>
                  match validate_key table key machine_id with
                  | Raise e => (out, Uncaught e)
                  | Ok (is_valid, msg) =>
                      print out (lit "  Validierung: " ++ msg)
                        (fun out => (out, SystemExit 0))
                  end))))
              end
          | None => ([], InteractiveMode)
          end
      end
  end.

(** *** verify_keys.py, the secret and the test keys *)

Definition f1 : list N := [0xe6; 0xd2; 0xf5; 0xc6; 0xf8; 0xe2; 0xd6; 0xf8; 0x95].
Definition f2 : list N := [0x6b; 0x69; 0x6d; 0x04; 0x17; 0x32; 0x18; 0x3e; 0x15].
Definition f3 : list N := [0xa0; 0x96; 0x8c; 0xb8; 0x96; 0xaa; 0x8c; 0x80; 0xb6].
Definition f4 : list N := [0xcc; 0xfd; 0xca; 0xfb; 0xd0; 0xd9; 0xbd].
Definition k1 : N := 0xa7.
Definition k2 : N := 0x5b.
Definition k3 : N := 0xd3.
Definition k4 : N := 0x8f.

Definition unmask (fragment : list N) (k : N) : str :=
  map (fun b => N.lxor b k) fragment.

Definition cpp_secret : str :=
  unmask f1 k1 ++ unmask f2 k2 ++ unmask f3 k3 ++ unmask f4 k4.

Definition py_secret : str := lit "AuRa_Eq_2026_LiCeNsE_kEy_SeCrEt_V2".

(** The key the script prints for the customer number [i]. *)
Definition test_key (machine_id : str) (i : Z) : result str :=
  let cid := format_04d i in
  let inp := py_secret ++ lit "-" ++ cid ++ lit "-" ++ machine_id in
  data <- Py.encode_utf8 inp ;;
  let sig := upper (Py.slice_to 8 (Hashlib.md5_hexdigest data)) in
  Ok (lit "AURA-" ++ cid ++ lit "-" ++ Py.slice_to 4 machine_id
        ++ lit "-" ++ sig).

End CommandLine.

(** A case table with no mapping outside ASCII: every such character is
    its own upper case.  Python's table agrees with it on the characters
    that have no upper-case mapping, among them all surrogates and all
    white space. *)
Definition caseless : codepoint -> str := fun c => [c].

(** ** Notions used in the statements *)

(** Characters that [str.upper] leaves alone, whatever the case table:
    the ASCII characters other than [a-z]. *)
Definition plain (c : codepoint) : bool :=
  (c <? 128) && negb ((97 <=? c) && (c <=? 122)).

(** Hexadecimal digits, lower case and upper case. *)
Definition lower_hex (c : codepoint) : bool :=
  ((48 <=? c) && (c <=? 57)) || ((97 <=? c) && (c <=? 102)).

Definition upper_hex (c : codepoint) : bool :=
  ((48 <=? c) && (c <=? 57)) || ((65 <=? c) && (c <=? 70)).

(** The signature of a digest: eight upper-case hexadecimal digits. *)
Definition signature_of (data : bytes) : str :=
  map Py.ascii_upper (firstn 8 (Hashlib.md5_hexdigest data)).

(** The strings [encode('utf-8')] accepts. *)
Definition encodable (s : str) : bool :=
  forallb (fun c => match Py.utf8_char c with Some _ => true | None => false end) s.

(** The f-string [AURA-{cid}-{machine_prefix}-{signature}]. *)
Definition make_key (cid machine_prefix signature : str) : str :=
  lit "AURA-" ++ cid ++ lit "-" ++ machine_prefix ++ lit "-" ++ signature.

(** The signature as the specification words it: the first eight
    characters of the upper-cased hexadecimal digest of the UTF-8 bytes of
    [Secret-customer-machine]. *)
Definition compute_signature_spec (table : codepoint -> str)
    (customer_id machine_id : str) : result str :=
  match Py.encode_utf8
          (SECRET ++ lit "-" ++ customer_id ++ lit "-" ++ machine_id) with
  | Ok data => Ok (firstn 8 (Py.upper table (Hashlib.md5_hexdigest data)))
  | Raise e => Raise e
  end.

(** The customer id as [generate_key] normalizes it. *)
Definition normal_cid (table : codepoint -> str) (customer_id : str) : str :=
  Py.slice_to 4 (Py.ljust 4 (Py.upper table customer_id)).

(** The validation as the specification words it: both inputs are
    upper-cased and trimmed, then five checks are made in order, the first
    that fails deciding the answer. *)
Definition validate_key_spec (table : codepoint -> str)
    (key machine_id : str) : result (bool * str) :=
  let key := Py.strip (Py.upper table key) in
  let machine_id := Py.strip (Py.upper table machine_id) in
  let customer_id := Py.slice 5 9 key in
  let machine_prefix := Py.slice 10 14 key in
  let signature := Py.slice 15 23 key in
  if negb (Py.startswith key (lit "AURA-")) then
    Ok (false, msg_prefix)
  else if negb (length key =? 23)%nat then
    Ok (false, msg_length key)
  else if negb (forallb (fun i => nth i key 0 =? 45) [4; 9; 14]%nat) then
    Ok (false, msg_separators)
  else if negb (Py.str_eqb machine_prefix (firstn 4 machine_id)) then
    Ok (false, msg_machine machine_prefix machine_id)
  else
    match compute_signature table customer_id machine_id with
    | Raise e => Raise e
    | Ok expected =>
        if negb (Py.str_eqb signature expected) then
          Ok (false, msg_signature expected signature)
        else Ok (true, msg_valid machine_id customer_id)
    end.

(** All five checks pass for the normalized key [k] and machine id [m]. *)
Definition checks_pass (table : codepoint -> str) (k m : str) : Prop :=
  Py.startswith k (lit "AURA-") = true
  /\ length k = 23%nat
  /\ (nth_error k 4 = Some 45 /\ nth_error k 9 = Some 45
      /\ nth_error k 14 = Some 45)
  /\ Py.slice 10 14 k = firstn 4 m
  /\ compute_signature table (Py.slice 5 9 k) m = Ok (Py.slice 15 23 k).

(** The three format checks on a normalized key. *)
Definition well_formed (k : str) : bool :=
  Py.startswith k (lit "AURA-") && (length k =? 23)%nat
  && forallb (fun i => nth i k 0 =? 45) [4; 9; 14]%nat.

(** Strings made of characters that are their own upper case. *)
Definition fixed (table : codepoint -> str) (s : str) : Prop :=
  Forall (fun d => Py.upper_char table d = [d]) s.

(** The string [s] with the character at index [i] changed to [d]. *)
Definition replace_at (i : nat) (d : codepoint) (s : str) : str :=
  firstn i s ++ d :: skipn (S i) s.

(** Two case tables agree on the characters of [s]. *)
Definition agree (table table' : codepoint -> str) (s : str) : Prop :=
  Forall (fun c => Py.upper_char table c = Py.upper_char table' c) s.

(** Decimal digits, and the value of a string of them with an optional
    sign in front. *)
Definition digit (c : codepoint) : bool := (48 <=? c) && (c <=? 57).

Definition decimal_value (s : str) : Z :=
  let value := fold_left (fun acc c => (10 * acc + Z.of_N (c - 48))%Z) in
  match s with
  | c :: s' => if c =? 45 then (- value s' 0)%Z else value s 0%Z
  | [] => 0%Z
  end.

(** The three lines the batch mode prints first, and the line of one
    customer. *)
Definition batch_header (table : codepoint -> str) (n : Z) (m : str)
  : list str :=
  [ [10] ++ rule;
    lit "Batch: " ++ str_of_Z n ++ lit " Keys fuer Machine "
      ++ Py.upper table m;
    rule ++ [10] ].

Definition batch_line (i : Z) (key : str) : str :=
  lit "  Kunde " ++ format_04d i ++ lit ": " ++ key.

(** A machine id [generate_key] can make a key for. *)
Definition usable (table : codepoint -> str) (m : str) : Prop :=
  (4 <= length (Py.upper table m))%nat /\ encodable (Py.upper table m) = true.

(** A group of the volume-serial pattern: four hexadecimal digits. *)
Definition hex4 (g : str) : Prop :=
  length g = 4%nat /\ forallb Re.is_hex g = true.

(** The pattern occurs in [s] after [pre], with the groups [g1], [g2]. *)
Definition occurs (s pre g1 g2 : str) : Prop :=
  exists post, s = pre ++ g1 ++ 45 :: g2 ++ post /\ hex4 g1 /\ hex4 g2.

(** The machine id as the specification words it. *)
Definition machine_id_spec (table : codepoint -> str)
    (fingerprint : str) : result str :=
  match Py.encode_utf8 fingerprint with
  | Ok data => Ok (firstn 8 (Py.upper table (Hashlib.md5_hexdigest data)))
  | Raise e => Raise e
  end.

(** ** Tactics *)

Ltac cmp :=
  repeat (match goal with
          | |- context [N.ltb ?a ?b] => destruct (N.ltb_spec a b)
          | |- context [N.leb ?a ?b] => destruct (N.leb_spec a b)
          | |- context [N.eqb ?a ?b] => destruct (N.eqb_spec a b)
          | H : context [N.ltb ?a ?b] |- _ => destruct (N.ltb_spec a b)
          | H : context [N.leb ?a ?b] |- _ => destruct (N.leb_spec a b)
          | H : context [N.eqb ?a ?b] |- _ => destruct (N.eqb_spec a b)
          end; cbn [andb orb negb] in *; try lia; try congruence).

Tactic Notation "explode" ident(l) integer(n) :=
  do n (destruct l as [|? l]; [discriminate|]);
  destruct l; [|discriminate].

Ltac outcome :=
  repeat split; intros;
  repeat match goal with
    | H : exists _, _ |- _ => destruct H
    | H : _ /\ _ |- _ => destruct H
    end;
  try discriminate; try lia; try congruence; eauto.

(** ** Lemmas on the builtins *)

Lemma str_eqb_eq (s t : str) : Py.str_eqb s t = true <-> s = t.
Proof.
  revert t; induction s as [|a s IH]; intros [|b t]; simpl; split;
    try congruence; try reflexivity.
  - intros H; apply andb_prop in H as [Hab Hst].
    apply N.eqb_eq in Hab; apply IH in Hst; congruence.
  - intros H; injection H as -> ->.
    rewrite N.eqb_refl; simpl; apply IH; reflexivity.
Qed.

Lemma str_eqb_refl (s : str) : Py.str_eqb s s = true.
Proof. apply str_eqb_eq; reflexivity. Qed.

Lemma str_eqb_neq (s t : str) : Py.str_eqb s t = false <-> s <> t.
Proof.
  rewrite <- str_eqb_eq; destruct (Py.str_eqb s t); split; congruence.
Qed.

Lemma upper_app table (s t : str) :
  Py.upper table (s ++ t) = Py.upper table s ++ Py.upper table t.
Proof. unfold Py.upper; apply flat_map_app. Qed.

Lemma upper_char_plain table c :
  plain c = true -> Py.upper_char table c = [c].
Proof.
  unfold plain, Py.upper_char, Py.ascii_upper; cmp; discriminate.
Qed.

Lemma upper_plain table (s : str) :
  forallb plain s = true -> Py.upper table s = s.
Proof.
  unfold Py.upper; induction s as [|c s IH]; simpl; [reflexivity|].
  intros H; apply andb_prop in H as [Hc Hs].
  rewrite (upper_char_plain _ _ Hc), IH by assumption; reflexivity.
Qed.

Lemma lstrip_snoc (s : str) (x : codepoint) :
  Py.isspace x = false -> Py.lstrip (s ++ [x]) = Py.lstrip s ++ [x].
Proof.
  intros Hx; induction s as [|c s IH]; simpl.
  - rewrite Hx; reflexivity.
  - destruct (Py.isspace c); [exact IH | reflexivity].
Qed.

Lemma rstrip_cons (x : codepoint) (s : str) :
  Py.isspace x = false -> Py.rstrip (x :: s) = x :: Py.rstrip s.
Proof.
  intros Hx; unfold Py.rstrip; simpl.
  rewrite lstrip_snoc by assumption.
  rewrite rev_app_distr; reflexivity.
Qed.

Lemma rstrip_snoc (s : str) (x : codepoint) :
  Py.isspace x = false -> Py.rstrip (s ++ [x]) = s ++ [x].
Proof.
  intros Hx; unfold Py.rstrip.
  rewrite rev_app_distr; simpl; rewrite Hx; simpl.
  rewrite rev_involutive; reflexivity.
Qed.

(** [strip] keeps a string that neither starts nor ends with white space. *)
Lemma strip_fixed (x y : codepoint) (s : str) :
  Py.isspace x = false -> Py.isspace y = false ->
  Py.strip (x :: s ++ [y]) = x :: s ++ [y].
Proof.
  intros Hx Hy; unfold Py.strip; simpl; rewrite Hx.
  change (x :: s ++ [y]) with ((x :: s) ++ [y]).
  apply rstrip_snoc; assumption.
Qed.

(** A stripped string does not start with white space. *)
Lemma lstrip_head (s : str) :
  match Py.lstrip s with
  | [] => True
  | c :: _ => Py.isspace c = false
  end.
Proof.
  induction s as [|c s IH]; simpl; [exact I|].
  destruct (Py.isspace c) eqn:E; [exact IH | exact E].
Qed.

Lemma strip_head (s : str) :
  match Py.strip s with
  | [] => True
  | c :: _ => Py.isspace c = false
  end.
Proof.
  unfold Py.strip; pose proof (lstrip_head s) as H.
  destruct (Py.lstrip s) as [|c t]; [exact I|].
  rewrite rstrip_cons by assumption; assumption.
Qed.

(** ** Lemmas on the digest *)

Lemma hex_digit_lower (n : N) : n < 16 -> lower_hex (Hashlib.hex_digit n) = true.
Proof. intros H; unfold lower_hex, Hashlib.hex_digit; cmp. Qed.

Lemma hexdigest_lower (msg : bytes) :
  forallb lower_hex (Hashlib.md5_hexdigest msg) = true.
Proof.
  unfold Hashlib.md5_hexdigest.
  induction (Hashlib.digest msg) as [|b bs IH]; simpl; [reflexivity|].
  rewrite !hex_digit_lower by (apply N.mod_lt; discriminate); exact IH.
Qed.

Lemma hexdigest_length (msg : bytes) :
  length (Hashlib.md5_hexdigest msg) = 32%nat.
Proof. reflexivity. Qed.

(** From here on the digest is used through the two lemmas above only. *)
Opaque Hashlib.md5_hexdigest.

Lemma upper_ascii_map table (s : str) :
  forallb (fun c => c <? 128) s = true ->
  Py.upper table s = map Py.ascii_upper s.
Proof.
  unfold Py.upper; induction s as [|c s IH]; simpl; [reflexivity|].
  intros H; apply andb_prop in H as [Hc Hs].
  rewrite IH by assumption.
  unfold Py.upper_char; rewrite Hc; reflexivity.
Qed.

Lemma forallb_impl {A} (p q : A -> bool) (l : list A) :
  (forall x, p x = true -> q x = true) ->
  forallb p l = true -> forallb q l = true.
Proof.
  intros Hpq; induction l as [|x l IH]; simpl; [reflexivity|].
  intros H; apply andb_prop in H as [Hx Hl].
  rewrite (Hpq _ Hx), IH by assumption; reflexivity.
Qed.

Lemma forallb_firstn {A} (p : A -> bool) (n : nat) (l : list A) :
  forallb p l = true -> forallb p (firstn n l) = true.
Proof.
  revert l; induction n as [|n IH]; intros [|x l]; simpl; try reflexivity.
  intros H; apply andb_prop in H as [Hx Hl].
  rewrite Hx, IH by assumption; reflexivity.
Qed.

Lemma lower_hex_ascii c : lower_hex c = true -> (c <? 128) = true.
Proof. unfold lower_hex; cmp; discriminate. Qed.

Lemma upper_hex_plain c : upper_hex c = true -> plain c = true.
Proof. unfold upper_hex, plain; cmp; discriminate. Qed.

Lemma upper_hex_not_space c : upper_hex c = true -> Py.isspace c = false.
Proof.
  intros H; assert (48 <= c <= 70) as B
    by (revert H; unfold upper_hex; cmp; discriminate).
  unfold Py.isspace; cmp.
Qed.

Lemma ascii_upper_hex c :
  lower_hex c = true -> upper_hex (Py.ascii_upper c) = true.
Proof. unfold lower_hex, upper_hex, Py.ascii_upper; cmp; discriminate. Qed.

Lemma upper_of_lower_hex table (s : str) :
  forallb lower_hex s = true ->
  Py.upper table s = map Py.ascii_upper s
  /\ forallb upper_hex (map Py.ascii_upper s) = true.
Proof.
  intros H; split.
  - apply upper_ascii_map.
    revert H; apply forallb_impl; exact lower_hex_ascii.
  - induction s as [|c s IH]; simpl; [reflexivity|].
    simpl in H; apply andb_prop in H as [Hc Hs].
    rewrite (ascii_upper_hex _ Hc), IH by assumption; reflexivity.
Qed.

Lemma signature_of_shape (data : bytes) :
  length (signature_of data) = 8%nat
  /\ forallb upper_hex (signature_of data) = true.
Proof.
  unfold signature_of; split.
  - rewrite length_map, firstn_length_le; [reflexivity|].
    rewrite hexdigest_length; lia.
  - apply (upper_of_lower_hex (fun c => [c])), forallb_firstn, hexdigest_lower.
Qed.

Lemma compute_signature_eq table (cid mid : str) :
  compute_signature table cid mid
  = data <- Py.encode_utf8 (SECRET ++ lit "-" ++ cid ++ lit "-" ++ mid) ;;
    Ok (signature_of data).
Proof.
  unfold compute_signature.
  destruct (Py.encode_utf8 _) as [data|e]; simpl; [|reflexivity].
  f_equal; unfold Py.slice_to, signature_of.
  apply upper_of_lower_hex, forallb_firstn, hexdigest_lower.
Qed.

Lemma compute_signature_shape table (cid mid sig : str) :
  compute_signature table cid mid = Ok sig ->
  length sig = 8%nat /\ forallb upper_hex sig = true.
Proof.
  rewrite compute_signature_eq.
  destruct (Py.encode_utf8 _) as [data|e]; simpl; [|discriminate].
  intros H; injection H as <-; apply signature_of_shape.
Qed.

Lemma compute_signature_raises table (cid mid : str) (e : exn) :
  compute_signature table cid mid = Raise e ->
  exists pos, e = UnicodeEncodeError pos.
Proof.
  rewrite compute_signature_eq; unfold Py.encode_utf8.
  generalize (SECRET ++ lit "-" ++ cid ++ lit "-" ++ mid), 0%nat.
  intros s; induction s as [|c s IH]; intros pos; simpl; [discriminate|].
  destruct (Py.utf8_char c); [|intros H; injection H as <-; eauto].
  specialize (IH (S pos)).
  destruct (Py.encode_from (S pos) s); simpl in *; [discriminate|exact IH].
Qed.

(** ** Encodable strings *)

Lemma utf8_char_none (c : codepoint) :
  c < 0x110000 ->
  (Py.utf8_char c = None <-> 0xD800 <= c <= 0xDFFF).
Proof.
  intros Hc; unfold Py.utf8_char; split.
  - cmp; discriminate.
  - intros [H1 H2]; cmp.
Qed.

Lemma encodable_app (s t : str) :
  encodable (s ++ t) = encodable s && encodable t.
Proof. apply forallb_app. Qed.

Lemma encode_from_ok (s : str) (pos : nat) :
  encodable s = true -> exists data, Py.encode_from pos s = Ok data.
Proof.
  revert pos; induction s as [|c s IH]; intros pos; simpl; [eauto|].
  destruct (Py.utf8_char c) as [bs|]; [|discriminate].
  intros H; destruct (IH (S pos) H) as [rest ->]; simpl; eauto.
Qed.

Lemma encode_from_raise (s : str) (pos : nat) :
  encodable s = false -> exists p, Py.encode_from pos s = Raise (UnicodeEncodeError p).
Proof.
  revert pos; induction s as [|c s IH]; intros pos; simpl; [discriminate|].
  destruct (Py.utf8_char c) as [bs|]; [|eauto].
  intros H; destruct (IH (S pos) H) as [p ->]; simpl; eauto.
Qed.

Lemma compute_signature_ok table (cid mid : str) :
  encodable cid = true -> encodable mid = true ->
  exists data, compute_signature table cid mid = Ok (signature_of data).
Proof.
  intros Hc Hm; rewrite compute_signature_eq; unfold Py.encode_utf8.
  destruct (encode_from_ok (SECRET ++ lit "-" ++ cid ++ lit "-" ++ mid) 0)
    as [data ->]; [|simpl; eauto].
  rewrite !encodable_app, Hc, Hm; reflexivity.
Qed.

Lemma compute_signature_fails table (cid mid : str) :
  encodable cid && encodable mid = false ->
  exists p, compute_signature table cid mid = Raise (UnicodeEncodeError p).
Proof.
  intros H; rewrite compute_signature_eq; unfold Py.encode_utf8.
  destruct (encode_from_raise (SECRET ++ lit "-" ++ cid ++ lit "-" ++ mid) 0)
    as [p ->]; [|simpl; eauto].
  rewrite !encodable_app.
  change (encodable SECRET) with true; change (encodable (lit "-")) with true.
  simpl; destruct (encodable cid); simpl in *; assumption.
Qed.

Lemma compute_signature_encodable table (cid mid sig : str) :
  compute_signature table cid mid = Ok sig ->
  encodable cid = true /\ encodable mid = true.
Proof.
  intros E; destruct (encodable cid && encodable mid) eqn:En.
  - apply andb_prop in En; exact En.
  - destruct (compute_signature_fails table _ _ En); congruence.
Qed.

(** ** The key format *)

Lemma make_key_fields (cid p sig : str) :
  length cid = 4%nat -> length p = 4%nat -> length sig = 8%nat ->
  let k := make_key cid p sig in
  length k = 23%nat
  /\ Py.startswith k (lit "AURA-") = true
  /\ nth_error k 4 = Some 45 /\ nth_error k 9 = Some 45
  /\ nth_error k 14 = Some 45
  /\ Py.slice 5 9 k = cid /\ Py.slice 10 14 k = p /\ Py.slice 15 23 k = sig.
Proof.
  intros Hc Hp Hs.
  explode cid 4; explode p 4; explode sig 8.
  repeat split; reflexivity.
Qed.

Lemma cid_length table (c : str) :
  length (Py.slice_to 4 (Py.ljust 4 (Py.upper table c))) = 4%nat.
Proof.
  unfold Py.slice_to, Py.ljust.
  rewrite firstn_length_le; [reflexivity|].
  rewrite length_app, repeat_length; lia.
Qed.

(** ** The key codec *)

Section Codec.

Variable table : codepoint -> str.

Local Abbreviation upper := (Py.upper table).
Local Abbreviation cid_of := (normal_cid table).

Lemma generate_key_short (c m : str) :
  (length (upper m) < 4)%nat ->
  exists msg, generate_key table c m = Raise (ValueError msg).
Proof.
  intros H; unfold generate_key, Py.len.
  destruct (N.ltb_spec (N.of_nat (length (upper m))) 4); [eauto|lia].
Qed.

Lemma generate_key_long (c m : str) :
  (4 <= length (upper m))%nat ->
  generate_key table c m
  = sig <- compute_signature table (cid_of c) (upper m) ;;
    Ok (make_key (cid_of c) (firstn 4 (upper m)) sig).
Proof.
  intros H; unfold generate_key, Py.len.
  destruct (N.ltb_spec (N.of_nat (length (upper m))) 4); [lia|].
  fold (normal_cid table c).
  destruct (compute_signature table (cid_of c) (upper m)) as [sig|e] eqn:E;
    cbv beta iota delta [bind]; [|reflexivity].
  apply compute_signature_shape in E as [Hlen _].
  destruct (make_key_fields (cid_of c) (firstn 4 (upper m)) sig) as [L _];
    [apply cid_length | apply firstn_length_le; assumption | assumption |].
  unfold make_key, Py.slice_to in *; rewrite L; reflexivity.
Qed.

(** C2: the signature is the first eight characters of the upper-case
    hexadecimal MD5 digest of the UTF-8 bytes of
    [SECRET-customer_id-machine_id]; it depends on nothing but its two
    arguments (not even on the case table), and when it is produced it
    consists of eight upper-case hexadecimal digits; the only way to
    fail is that the string cannot be encoded. *)
Theorem compute_signature_correct (customer_id machine_id : str) :
  compute_signature table customer_id machine_id
  = compute_signature_spec table customer_id machine_id
  /\ (forall table',
        compute_signature table' customer_id machine_id
        = compute_signature table customer_id machine_id)
  /\ match compute_signature table customer_id machine_id with
     | Ok sig => length sig = 8%nat /\ forallb upper_hex sig = true
     | Raise e => exists pos, e = UnicodeEncodeError pos
     end.
Proof.
  split; [|split].
  - unfold compute_signature, compute_signature_spec.
    destruct (Py.encode_utf8 _) as [data|e];
      cbv beta iota delta [bind]; [|reflexivity].
    f_equal; unfold Py.slice_to.
    pose proof (hexdigest_lower data) as H.
    destruct (upper_of_lower_hex table _ H) as [-> _].
    destruct (upper_of_lower_hex table _ (forallb_firstn _ 8 _ H)) as [-> _].
    symmetry; apply firstn_map.
  - intros table'; rewrite !compute_signature_eq; reflexivity.
  - destruct (compute_signature table customer_id machine_id) eqn:E.
    + eapply compute_signature_shape; eassumption.
    + eapply compute_signature_raises; eassumption.
Qed.

(** C4: when the upper-cased machine id has at least four characters,
    the string [generate_key] returns has length 23, starts with
    [AURA-] and has ['-'] at the indices 4, 9 and 14. *)
Theorem generate_key_shape (c m k : str) :
  (4 <= length (upper m))%nat ->
  generate_key table c m = Ok k ->
  length k = 23%nat
  /\ Py.startswith k (lit "AURA-") = true
  /\ nth_error k 4 = Some 45 /\ nth_error k 9 = Some 45
  /\ nth_error k 14 = Some 45.
Proof.
  intros H; rewrite generate_key_long by assumption.
  destruct (compute_signature table (cid_of c) (upper m)) as [sig|e] eqn:E;
    simpl; [|discriminate].
  intros K; injection K as <-.
  apply compute_signature_shape in E as [Hlen _].
  destruct (make_key_fields (cid_of c) (firstn 4 (upper m)) sig)
    as (L & P & S1 & S2 & S3 & _);
    [apply cid_length | apply firstn_length_le; assumption | assumption |].
  auto.
Qed.

(** C5 (amended): [generate_key] raises the "machine id too short"
    [ValueError] exactly when the upper-cased machine id has fewer than
    four characters.  Otherwise it returns a key exactly when the
    normalized customer id and the upper-cased machine id can be encoded
    as UTF-8, and raises [UnicodeEncodeError] when they cannot; the
    assertion on the key length never fires, and no index is out of
    range. *)
Theorem generate_key_outcome (c m : str) :
  ((exists msg, generate_key table c m = Raise (ValueError msg))
   <-> (length (upper m) < 4)%nat)
  /\ ((exists k, generate_key table c m = Ok k)
      <-> (4 <= length (upper m))%nat
          /\ encodable (cid_of c) && encodable (upper m) = true)
  /\ ((exists pos, generate_key table c m = Raise (UnicodeEncodeError pos))
      <-> (4 <= length (upper m))%nat
          /\ encodable (cid_of c) && encodable (upper m) = false)
  /\ (forall msg, generate_key table c m <> Raise (AssertionError msg))
  /\ generate_key table c m <> Raise IndexError.
Proof.
  destruct (Nat.lt_ge_cases (length (upper m)) 4) as [Hs|Hl].
  - destruct (generate_key_short c m Hs) as [msg E]; rewrite E.
    outcome.
  - rewrite (generate_key_long c m Hl).
    destruct (encodable (cid_of c) && encodable (upper m)) eqn:En.
    + apply andb_prop in En as [E1 E2].
      destruct (compute_signature_ok table _ _ E1 E2) as [data ->].
      cbv beta iota delta [bind].
      outcome.
    + destruct (compute_signature_fails table _ _ En) as [p ->].
      cbv beta iota delta [bind].
      outcome.
Qed.

Lemma cid_pad (c : str) :
  (length (upper c) <= 4)%nat ->
  cid_of c = upper c ++ repeat 32 (4 - length (upper c)).
Proof.
  intros H; unfold normal_cid, Py.slice_to, Py.ljust.
  apply firstn_all2; rewrite length_app, repeat_length; lia.
Qed.

Lemma cid_truncate (c : str) :
  (4 <= length (upper c))%nat -> cid_of c = firstn 4 (upper c).
Proof.
  intros H; unfold normal_cid, Py.slice_to, Py.ljust.
  replace (4 - length (upper c))%nat with 0%nat by lia.
  simpl; rewrite app_nil_r; reflexivity.
Qed.

(** C7: the customer id embedded at the indices 5 to 8 of a generated
    key is the upper-cased customer id brought to exactly four
    characters, padded on the right with spaces when shorter and cut
    after the fourth character when longer; for the customer ["1"] and
    the machine ["AB12CD34"] it is ["1   "]. *)
Theorem generate_key_customer_field (c m k : str) :
  generate_key table c m = Ok k ->
  Py.slice 5 9 k = cid_of c
  /\ length (cid_of c) = 4%nat
  /\ ((length (upper c) <= 4)%nat ->
      cid_of c = upper c ++ repeat 32 (4 - length (upper c)))
  /\ ((4 <= length (upper c))%nat -> cid_of c = firstn 4 (upper c))
  /\ generate_key table (lit "1") (lit "AB12CD34")
     = Ok (lit "AURA-1   -AB12-E4407A3D")
  /\ Py.slice 5 9 (lit "AURA-1   -AB12-E4407A3D") = lit "1   ".
Proof.
  intros G.
  assert (4 <= length (upper m))%nat as Hl.
  { destruct (Nat.lt_ge_cases (length (upper m)) 4) as [Hs|Hl]; [|exact Hl].
    destruct (generate_key_short c m Hs) as [msg E]; congruence. }
  rewrite (generate_key_long c m Hl) in G.
  destruct (compute_signature table (cid_of c) (upper m)) as [sig|e] eqn:E;
    cbv beta iota delta [bind] in G; [|discriminate].
  injection G as <-.
  apply compute_signature_shape in E as [Hlen _].
  destruct (make_key_fields (cid_of c) (firstn 4 (upper m)) sig)
    as (_ & _ & _ & _ & _ & F & _);
    [apply cid_length | apply firstn_length_le; assumption | assumption |].
  split; [exact F|].
  split; [apply cid_length|].
  split; [apply cid_pad|].
  split; [apply cid_truncate|].
  split; vm_compute; reflexivity.
Qed.

End Codec.

(** ** Validation *)

Section Validation.

Variable table : codepoint -> str.

Local Abbreviation upper := (Py.upper table).

Lemma len_23 (k : str) : (Py.len k =? 23) = (length k =? 23)%nat.
Proof.
  unfold Py.len.
  destruct (N.eqb_spec (N.of_nat (length k)) 23),
    (Nat.eqb_spec (length k) 23); try reflexivity; lia.
Qed.

Lemma validate_key_refines (key machine_id : str) :
  validate_key table key machine_id
  = validate_key_spec table key machine_id.
Proof.
  unfold validate_key, validate_key_spec.
  generalize (Py.strip (upper key)) as k,
    (Py.strip (upper machine_id)) as m; intros k m.
  destruct (Py.startswith k (lit "AURA-")); [|reflexivity].
  cbv beta iota delta [negb].
  rewrite len_23.
  destruct (Nat.eqb_spec (length k) 23) as [L|L]; [|reflexivity].
  cbv beta iota delta [negb].
  explode k 23.
  cbv beta iota delta [or_else differs_at Py.index nth_error bind forallb nth].
  destruct (N.eqb_spec c3 45), (N.eqb_spec c8 45), (N.eqb_spec c13 45);
    cbv beta iota delta [negb andb]; reflexivity.
Qed.

Lemma validate_key_accepts (key machine_id : str) (msg : str) :
  validate_key table key machine_id = Ok (true, msg)
  <-> checks_pass table (Py.strip (upper key)) (Py.strip (upper machine_id))
      /\ msg = msg_valid (Py.strip (upper machine_id))
                         (Py.slice 5 9 (Py.strip (upper key))).
Proof.
  rewrite validate_key_refines.
  unfold validate_key_spec, checks_pass.
  generalize (Py.strip (upper key)) as k,
    (Py.strip (upper machine_id)) as m; intros k m.
  destruct (Py.startswith k (lit "AURA-"));
    cbv beta iota delta [negb];
    [|split; [discriminate|intros [[? _] _]; discriminate]].
  destruct (Nat.eqb_spec (length k) 23) as [L|L];
    cbv beta iota delta [negb];
    [|split; [discriminate|intros [(_ & ? & _) _]; contradiction]].
  explode k 23.
  cbv beta iota delta [forallb nth nth_error].
  destruct (N.eqb_spec c3 45), (N.eqb_spec c8 45), (N.eqb_spec c13 45);
    cbv beta iota delta [negb andb];
    try (split; [discriminate|intros [(_ & _ & (? & ? & ?) & _) _]; congruence]).
  subst c3 c8 c13.
  destruct (Py.str_eqb (Py.slice 10 14 _) (firstn 4 m)) eqn:E1.
  2:{ split; [discriminate|intros [(_ & _ & _ & P & _) _]].
      apply str_eqb_neq in E1; contradiction. }
  apply str_eqb_eq in E1.
  destruct (compute_signature table _ m) as [expected|e] eqn:E2.
  2:{ split; [discriminate|intros [(_ & _ & _ & _ & S) _]; discriminate]. }
  destruct (Py.str_eqb (Py.slice 15 23 _) expected) eqn:E3.
  2:{ split; [discriminate|intros [(_ & _ & _ & _ & S) _]].
      injection S as S; apply str_eqb_neq in E3; congruence. }
  apply str_eqb_eq in E3.
  split.
  - intros H; injection H as <-; rewrite E3; auto 10.
  - intros [_ ->]; reflexivity.
Qed.

(** An exception can only come from the encoding of the signature input,
    after the first four checks have passed. *)
Lemma validate_key_raises (key machine_id : str) (e : exn) :
  validate_key table key machine_id = Raise e ->
  exists pos, e = UnicodeEncodeError pos.
Proof.
  rewrite validate_key_refines; unfold validate_key_spec.
  repeat match goal with
         | |- context [if ?b then _ else _] => destruct b; try discriminate
         end.
  destruct (compute_signature table _ _) as [expected|e'] eqn:E.
  - destruct (negb _); discriminate.
  - intros H; injection H as <-.
    eapply compute_signature_raises; eassumption.
Qed.

Lemma encodable_lstrip (s : str) :
  encodable s = true -> encodable (Py.lstrip s) = true.
Proof.
  unfold encodable; induction s as [|c s IH]; simpl; [reflexivity|].
  intros H; destruct (Py.isspace c); [|exact H].
  apply andb_prop in H as [_ H]; auto.
Qed.

Lemma encodable_rev (s : str) : encodable (rev s) = encodable s.
Proof.
  unfold encodable; induction s as [|c s IH]; simpl; [reflexivity|].
  rewrite forallb_app, IH; simpl; rewrite andb_true_r; apply andb_comm.
Qed.

Lemma encodable_strip (s : str) :
  encodable s = true -> encodable (Py.strip s) = true.
Proof.
  intros H; unfold Py.strip, Py.rstrip.
  rewrite encodable_rev; apply encodable_lstrip.
  rewrite encodable_rev; apply encodable_lstrip; assumption.
Qed.

Lemma encodable_slice (a b : nat) (s : str) :
  encodable s = true -> encodable (Py.slice a b s) = true.
Proof.
  intros H; unfold Py.slice; apply forallb_firstn.
  rewrite <- (firstn_skipn a s) in H.
  unfold encodable in H; rewrite forallb_app in H.
  apply andb_prop in H as [_ H]; exact H.
Qed.

(** C3: [validate_key] upper-cases and trims both inputs and then makes
    the five checks in the order of the specification, the first failing
    check deciding the answer [false] and its message; the five messages
    differ from one another and from the message of success, whatever
    their parameters; the answer is [true] exactly when all five checks
    pass. *)
Theorem validate_key_checks (key machine_id : str) :
  let k := Py.strip (upper key) in
  let m := Py.strip (upper machine_id) in
  validate_key table key machine_id
  = validate_key_spec table key machine_id
  /\ (forall msg,
        validate_key table key machine_id = Ok (true, msg)
        <-> checks_pass table k m /\ msg = msg_valid m (Py.slice 5 9 k))
  /\ (forall p e s c,
        NoDup [msg_prefix; msg_length k; msg_separators;
               msg_machine p m; msg_signature e s; msg_valid m c]).
Proof.
  intros k m; split; [apply validate_key_refines|].
  split; [intros msg; apply validate_key_accepts|].
  intros p e s c.
  repeat (constructor;
          [cbn [In]; intros H;
           repeat (destruct H as [H|H]; [discriminate H|]); exact H|]).
  constructor.
Qed.

Lemma validate_key_raises_iff (key machine_id : str) :
  let k := Py.strip (upper key) in
  let m := Py.strip (upper machine_id) in
  (exists pos,
      validate_key table key machine_id = Raise (UnicodeEncodeError pos))
  <-> well_formed k = true /\ Py.slice 10 14 k = firstn 4 m
      /\ encodable (Py.slice 5 9 k) && encodable m = false.
Proof.
  intros k m.
  rewrite validate_key_refines; unfold validate_key_spec, well_formed.
  fold k m.
  destruct (Py.startswith k (lit "AURA-")); cbn [negb andb];
    [|split; [intros [? ?]|intros [? _]]; discriminate].
  destruct (length k =? 23)%nat; cbn [negb andb];
    [|split; [intros [? ?]|intros [? _]]; discriminate].
  destruct (forallb _ _); cbn [negb andb];
    [|split; [intros [? ?]|intros [? _]]; discriminate].
  destruct (Py.str_eqb (Py.slice 10 14 k) (firstn 4 m)) eqn:E1;
    cbn [negb].
  2:{ apply str_eqb_neq in E1.
      split; [intros [? ?]; discriminate|intros (_ & ? & _); contradiction]. }
  apply str_eqb_eq in E1.
  destruct (encodable (Py.slice 5 9 k) && encodable m) eqn:En.
  - apply andb_prop in En as [En1 En2].
    destruct (compute_signature_ok table _ _ En1 En2) as [data ->].
    split; [intros [? H]|intros (_ & _ & ?); discriminate].
    destruct (negb _); discriminate.
  - destruct (compute_signature_fails table _ _ En) as [p ->].
    split; eauto.
Qed.

(** C6 (amended): [validate_key] never reads a string out of range and
    raises nothing but [UnicodeEncodeError], which happens exactly when
    the key is well formed, names the machine, and the customer id it
    embeds or the machine id cannot be encoded as UTF-8; in every other
    case, and whenever both upper-cased inputs can be encoded, it
    returns a boolean with a message. *)
Theorem validate_key_total (key machine_id : str) :
  let k := Py.strip (upper key) in
  let m := Py.strip (upper machine_id) in
  ((exists b msg, validate_key table key machine_id = Ok (b, msg))
   \/ (exists pos,
         validate_key table key machine_id = Raise (UnicodeEncodeError pos)))
  /\ ((exists pos,
         validate_key table key machine_id = Raise (UnicodeEncodeError pos))
      <-> well_formed k = true /\ Py.slice 10 14 k = firstn 4 m
          /\ encodable (Py.slice 5 9 k) && encodable m = false)
  /\ (encodable (upper key) = true -> encodable (upper machine_id) = true ->
      exists b msg, validate_key table key machine_id = Ok (b, msg)).
Proof.
  intros k m.
  pose proof (validate_key_raises_iff key machine_id) as R; cbv zeta in R.
  fold k m in R.
  split; [|split; [exact R|]].
  - destruct (validate_key table key machine_id) as [[b msg]|e] eqn:E;
      [left; eauto|right].
    destruct (validate_key_raises _ _ _ E) as [pos ->]; eauto.
  - intros Hk Hm.
    destruct (validate_key table key machine_id) as [[b msg]|e] eqn:E;
      [eauto|].
    destruct (validate_key_raises _ _ _ E) as [pos ->].
    assert (encodable (Py.slice 5 9 k) && encodable m = false) as En
        by (apply R; eauto).
    unfold k, m in En.
    rewrite encodable_slice, encodable_strip in En
      by (try apply encodable_strip; assumption).
    discriminate.
Qed.

(** A key that passes the three format checks is made of its fields. *)
Lemma key_decompose (k : str) :
  Py.startswith k (lit "AURA-") = true ->
  length k = 23%nat ->
  nth_error k 4 = Some 45 -> nth_error k 9 = Some 45 ->
  nth_error k 14 = Some 45 ->
  k = make_key (Py.slice 5 9 k) (Py.slice 10 14 k) (Py.slice 15 23 k).
Proof.
  intros P L S1 S2 S3; explode k 23.
  cbn [nth_error] in S1, S2, S3.
  injection S1 as ->; injection S2 as ->; injection S3 as ->.
  change ((65 =? c) && ((85 =? c0) && ((82 =? c1) && ((65 =? c2)
            && ((45 =? 45) && true)))) = true) in P.
  destruct (N.eqb_spec 65 c); [subst|discriminate P].
  destruct (N.eqb_spec 85 c0); [subst|discriminate P].
  destruct (N.eqb_spec 82 c1); [subst|discriminate P].
  destruct (N.eqb_spec 65 c2); [subst|discriminate P].
  reflexivity.
Qed.

(** A key accepted for a machine id is determined by its customer-id
    field: another key with the same field and another normalized form is
    rejected. *)
Lemma accepted_key_determined (k k' m msg : str) :
  validate_key table k m = Ok (true, msg) ->
  Py.strip (upper k') <> Py.strip (upper k) ->
  Py.slice 5 9 (Py.strip (upper k')) = Py.slice 5 9 (Py.strip (upper k)) ->
  exists msg', validate_key table k' m = Ok (false, msg').
Proof.
  intros V Hne Hcid.
  apply validate_key_accepts in V as [(P & L & (S1 & S2 & S3) & Hp & Hs) _].
  destruct (validate_key table k' m) as [[[|] msg']|e] eqn:V'; [|eauto|].
  - exfalso; apply Hne.
    apply validate_key_accepts in V'
      as [(P' & L' & (S1' & S2' & S3') & Hp' & Hs') _].
    rewrite (key_decompose _ P L S1 S2 S3).
    rewrite (key_decompose _ P' L' S1' S2' S3').
    rewrite Hcid in Hs' |- *.
    rewrite Hp, Hp'; congruence.
  - exfalso.
    destruct (validate_key_raises _ _ _ V') as [pos ->].
    assert (encodable (Py.slice 5 9 (Py.strip (upper k')))
            && encodable (Py.strip (upper m)) = false) as En
        by (apply (validate_key_raises_iff k' m); eauto).
    rewrite Hcid in En.
    destruct (compute_signature_fails table _ _ En); congruence.
Qed.

(** The three format checks, one by one. *)
Lemma well_formed_iff (k : str) :
  well_formed k = true
  <-> Py.startswith k (lit "AURA-") = true /\ length k = 23%nat
      /\ nth_error k 4 = Some 45 /\ nth_error k 9 = Some 45
      /\ nth_error k 14 = Some 45.
Proof.
  unfold well_formed.
  destruct (Py.startswith k (lit "AURA-")); cbn [andb];
    [|split; [discriminate|intros [? _]; discriminate]].
  destruct (Nat.eqb_spec (length k) 23) as [L|L]; cbn [andb];
    [|split; [discriminate|intros (_ & ? & _); contradiction]].
  explode k 23.
  cbv beta iota delta [forallb nth nth_error].
  destruct (N.eqb_spec c3 45), (N.eqb_spec c8 45), (N.eqb_spec c13 45);
    cbn [andb];
    try (split; [discriminate|intros (_ & _ & ? & ? & ?); congruence]).
  subst; repeat split; reflexivity.
Qed.

Lemma checks_pass_iff (k m : str) :
  checks_pass table k m
  <-> well_formed k = true /\ Py.slice 10 14 k = firstn 4 m
      /\ compute_signature table (Py.slice 5 9 k) m = Ok (Py.slice 15 23 k).
Proof.
  unfold checks_pass; rewrite well_formed_iff; tauto.
Qed.

(** What becomes of another key once a key has been accepted: it is
    accepted too exactly when it passes the format and machine checks
    with another customer id that has the signature it carries. *)
Lemma changed_key_accepted (k k' m msg : str) :
  validate_key table k m = Ok (true, msg) ->
  Py.strip (upper k') <> Py.strip (upper k) ->
  (exists msg', validate_key table k' m = Ok (true, msg'))
  <-> (well_formed (Py.strip (upper k')) = true
       /\ Py.slice 10 14 (Py.strip (upper k')) = firstn 4 (Py.strip (upper m))
       /\ Py.slice 5 9 (Py.strip (upper k')) <> Py.slice 5 9 (Py.strip (upper k)))
      /\ compute_signature table (Py.slice 5 9 (Py.strip (upper k')))
           (Py.strip (upper m))
         = Ok (Py.slice 15 23 (Py.strip (upper k'))).
Proof.
  intros V Hne; split.
  - intros [msg' V'].
    assert (Py.slice 5 9 (Py.strip (upper k'))
            <> Py.slice 5 9 (Py.strip (upper k))) as Hc.
    { intros Hc.
      destruct (accepted_key_determined k k' m msg V Hne Hc) as [? R].
      congruence. }
    apply validate_key_accepts in V' as [C _].
    apply checks_pass_iff in C; tauto.
  - intros ((W & Hp & _) & Hs).
    eexists; apply validate_key_accepts; split; [|reflexivity].
    apply checks_pass_iff; auto.
Qed.

(** It makes [validate_key] raise exactly when it passes the format and
    machine checks with a customer id that cannot be encoded. *)
Lemma changed_key_raises (k k' m msg : str) :
  validate_key table k m = Ok (true, msg) ->
  (exists pos, validate_key table k' m = Raise (UnicodeEncodeError pos))
  <-> (well_formed (Py.strip (upper k')) = true
       /\ Py.slice 10 14 (Py.strip (upper k')) = firstn 4 (Py.strip (upper m))
       /\ Py.slice 5 9 (Py.strip (upper k')) <> Py.slice 5 9 (Py.strip (upper k)))
      /\ encodable (Py.slice 5 9 (Py.strip (upper k'))) = false.
Proof.
  intros V.
  apply validate_key_accepts in V as [(_ & _ & _ & _ & Hs) _].
  destruct (compute_signature_encodable _ _ _ _ Hs) as [Ec Em].
  pose proof (validate_key_raises_iff k' m) as R; cbv zeta in R.
  rewrite R, Em, andb_true_r; split.
  - intros (W & Hp & En); repeat split; try assumption.
    intros Hc; rewrite Hc, Ec in En; discriminate.
  - tauto.
Qed.

(** Changing one character of a string of 23 characters: inside the
    customer-id field everything the checks look at besides that field
    stays, outside of it the field stays. *)
Lemma replace_in_field (i : nat) (d : codepoint) (k : str) :
  length k = 23%nat -> (5 <= i < 9)%nat ->
  well_formed (replace_at i d k) = well_formed k
  /\ Py.slice 10 14 (replace_at i d k) = Py.slice 10 14 k
  /\ Py.slice 15 23 (replace_at i d k) = Py.slice 15 23 k.
Proof.
  intros L Hi; explode k 23.
  assert (i = 5 \/ i = 6 \/ i = 7 \/ i = 8)%nat
    as [->|[->|[->| ->]]] by lia;
    repeat split; reflexivity.
Qed.

Lemma replace_off_field (i : nat) (d : codepoint) (k : str) :
  length k = 23%nat -> (i < 23)%nat -> (i < 5 \/ 9 <= i)%nat ->
  Py.slice 5 9 (replace_at i d k) = Py.slice 5 9 k.
Proof.
  intros L Hi Hpos; explode k 23.
  do 23 (destruct i as [|i]; [try reflexivity; exfalso; lia|]).
  exfalso; lia.
Qed.

(** One character of the normalized form of an accepted key changed:
    the key is rejected unless the character lies in the customer-id
    field and the new customer id cannot be encoded or has the signature
    of the old one. *)
Lemma one_character_changed (k k' m msg : str) (i : nat) (d : codepoint) :
  validate_key table k m = Ok (true, msg) ->
  Py.strip (upper k') <> Py.strip (upper k) ->
  (i < 23)%nat ->
  Py.strip (upper k') = replace_at i d (Py.strip (upper k)) ->
  (exists msg', validate_key table k' m = Ok (false, msg'))
  <-> (i < 5 \/ 9 <= i)%nat
      \/ (encodable (Py.slice 5 9 (Py.strip (upper k'))) = true
          /\ compute_signature table (Py.slice 5 9 (Py.strip (upper k')))
               (Py.strip (upper m))
             <> compute_signature table (Py.slice 5 9 (Py.strip (upper k)))
                  (Py.strip (upper m))).
Proof.
  intros V Hne Hi HK.
  pose proof V as V0.
  apply validate_key_accepts in V0 as [C _].
  pose proof C as (_ & L & _).
  apply checks_pass_iff in C as (W & Hp & Hs).
  destruct (compute_signature_encodable _ _ _ _ Hs) as [Ec Em].
  destruct (Nat.lt_ge_cases i 5) as [H5|H5];
    [|destruct (Nat.le_gt_cases 9 i) as [H9|H9]].
  1, 2: split; [intros _; left; lia|intros _];
    apply (accepted_key_determined k k' m msg V Hne);
    rewrite HK; apply replace_off_field; [exact L|exact Hi|lia].
  destruct (replace_in_field i d _ L (conj H5 H9)) as (W' & Hp' & Hs').
  rewrite <- HK in W', Hp', Hs'.
  split.
  - intros [msg' V'].
    right; split.
    + destruct (encodable (Py.slice 5 9 (Py.strip (upper k')))) eqn:En;
        [reflexivity|exfalso].
      assert (exists pos,
                 validate_key table k' m = Raise (UnicodeEncodeError pos))
        as [pos R].
      { apply (validate_key_raises_iff k' m); cbv zeta.
        rewrite W', W, Hp', Hp, En; auto. }
      congruence.
    + intros E.
      assert (validate_key table k' m
              = Ok (true, msg_valid (Py.strip (upper m))
                            (Py.slice 5 9 (Py.strip (upper k'))))) as A.
      { apply validate_key_accepts; split; [|reflexivity].
        apply checks_pass_iff; rewrite W', W, Hp', Hp, Hs', E; auto. }
      congruence.
  - intros [Ho|[En Hd]]; [exfalso; lia|].
    destruct (validate_key table k' m) as [[[|] msg']|e] eqn:V'; [|eauto|];
      exfalso.
    + apply validate_key_accepts in V' as [C' _].
      apply checks_pass_iff in C' as (_ & _ & Hs'').
      apply Hd; rewrite Hs'', Hs, Hs'; reflexivity.
    + destruct (validate_key_raises _ _ _ V') as [pos ->].
      assert (encodable (Py.slice 5 9 (Py.strip (upper k')))
              && encodable (Py.strip (upper m)) = false) as En'
          by (apply (validate_key_raises_iff k' m); eauto).
      rewrite En, Em in En'; discriminate.
Qed.

(** C8 (amended): once [validate_key] has accepted a key for a machine
    id, any change to the key, in particular of a single character, that
    alters its normalized form (so is more than a change of case or of
    the white space trimmed away) makes [validate_key] return [false]
    for the same machine id, except when the changed key passes the
    format and machine checks with another customer id in its field at
    indices 5-8 and either that customer id has the signature the
    changed key carries, and then the changed key is accepted, or it
    cannot be encoded as UTF-8, and then [UnicodeEncodeError] is
    raised.  When a single character of the normalized key is changed,
    this leaves exactly the changes inside the customer-id field that
    give a customer id with the same signature or one that cannot be
    encoded; every other change of one character is rejected. *)
Theorem valid_key_mutation (k k' m msg : str) :
  validate_key table k m = Ok (true, msg) ->
  Py.strip (upper k') <> Py.strip (upper k) ->
  let K := Py.strip (upper k) in
  let K' := Py.strip (upper k') in
  let M := Py.strip (upper m) in
  let passes :=
    well_formed K' = true /\ Py.slice 10 14 K' = firstn 4 M
    /\ Py.slice 5 9 K' <> Py.slice 5 9 K in
  (Py.slice 5 9 K' = Py.slice 5 9 K ->
   exists msg', validate_key table k' m = Ok (false, msg'))
  /\ ((exists msg', validate_key table k' m = Ok (false, msg'))
      <-> ~ (passes
             /\ (compute_signature table (Py.slice 5 9 K') M
                 = Ok (Py.slice 15 23 K')
                 \/ encodable (Py.slice 5 9 K') = false)))
  /\ ((exists msg', validate_key table k' m = Ok (true, msg'))
      <-> passes
          /\ compute_signature table (Py.slice 5 9 K') M
             = Ok (Py.slice 15 23 K'))
  /\ ((exists pos, validate_key table k' m = Raise (UnicodeEncodeError pos))
      <-> passes /\ encodable (Py.slice 5 9 K') = false)
  /\ (forall i d, (i < 23)%nat -> K' = replace_at i d K ->
      ((exists msg', validate_key table k' m = Ok (false, msg'))
       <-> (i < 5 \/ 9 <= i)%nat
           \/ (encodable (Py.slice 5 9 K') = true
               /\ compute_signature table (Py.slice 5 9 K') M
                  <> compute_signature table (Py.slice 5 9 K) M))).
Proof.
  intros V Hne K K' M passes.
  pose proof (changed_key_accepted k k' m msg V Hne) as A.
  pose proof (changed_key_raises k k' m msg V) as R.
  fold K K' M in A, R; fold passes in A, R.
  split; [intros Hc; exact (accepted_key_determined k k' m msg V Hne Hc)|].
  split; [|split; [exact A|split; [exact R|]]].
  - split.
    + intros [msg' F] [Hp [Hs|En]].
      * destruct (proj2 A (conj Hp Hs)); congruence.
      * destruct (proj2 R (conj Hp En)); congruence.
    + intros N.
      destruct (validate_key table k' m) as [[[|] msg']|e] eqn:V';
        [|eauto|]; exfalso; apply N.
      * destruct (proj1 A (ex_intro _ msg' eq_refl)); auto.
      * destruct (validate_key_raises _ _ _ V') as [pos ->].
        destruct (proj1 R (ex_intro _ pos eq_refl)); auto.
  - intros i d Hi HK.
    exact (one_character_changed k k' m msg i d V Hne Hi HK).
Qed.

End Validation.

(** ** Keys that [generate_key] makes, seen by [validate_key] *)

Lemma Forall_take {A} (P : A -> Prop) (n : nat) (l : list A) :
  Forall P l -> Forall P (firstn n l).
Proof.
  intros H; revert n; induction H as [|x l Hx _ IH]; intros [|n]; simpl;
    constructor; auto.
Qed.

Section RoundTrip.

Variable table : codepoint -> str.

Local Abbreviation upper := (Py.upper table).
Local Abbreviation cid_of := (normal_cid table).

(** What these results use of the interpreter's case table: a character
    produced by upper-casing is its own upper case, every character has
    an upper case, and white space is its own upper case. *)
Hypothesis table_stable :
  forall c d, 128 <= c -> In d (table c) -> Py.upper_char table d = [d].
Hypothesis table_nonempty : forall c, 128 <= c -> table c <> [].
Hypothesis table_space :
  forall c, 128 <= c -> Py.isspace c = true -> table c = [c].

Lemma upper_char_stable (c d : codepoint) :
  In d (Py.upper_char table c) -> Py.upper_char table d = [d].
Proof.
  unfold Py.upper_char at 1.
  destruct (N.ltb_spec c 128) as [Hc|Hc]; [|apply table_stable; assumption].
  intros [<-|[]]; apply upper_char_plain.
  unfold plain, Py.ascii_upper; cmp.
Qed.

Lemma fixed_upper (s : str) : fixed table (upper s).
Proof.
  unfold fixed, Py.upper; apply Forall_forall; intros d Hd.
  apply in_flat_map in Hd as (c & _ & Hd).
  eapply upper_char_stable; eassumption.
Qed.

Lemma upper_fixed (s : str) : fixed table s -> upper s = s.
Proof.
  unfold Py.upper; induction 1 as [|d s Hd _ IH]; simpl; [reflexivity|].
  rewrite Hd, IH; reflexivity.
Qed.

Lemma fixed_plain (s : str) : forallb plain s = true -> fixed table s.
Proof.
  intros H; apply Forall_forall; intros d Hd.
  apply upper_char_plain.
  rewrite forallb_forall in H; auto.
Qed.

Lemma fixed_cid (c : str) : fixed table (cid_of c).
Proof.
  unfold normal_cid, Py.slice_to, Py.ljust.
  apply Forall_take, Forall_app; split; [apply fixed_upper|].
  apply fixed_plain; induction (4 - length (upper c))%nat; simpl; auto.
Qed.

Lemma fixed_make_key (cid p sig : str) :
  fixed table cid -> fixed table p -> forallb upper_hex sig = true ->
  upper (make_key cid p sig) = make_key cid p sig.
Proof.
  intros Hc Hp Hs; unfold make_key.
  rewrite !upper_app, (upper_fixed cid), (upper_fixed p) by assumption.
  rewrite (upper_plain table sig)
    by (revert Hs; apply forallb_impl; exact upper_hex_plain).
  reflexivity.
Qed.

Lemma strip_make_key (cid p sig : str) :
  length cid = 4%nat -> length p = 4%nat -> length sig = 8%nat ->
  forallb upper_hex sig = true ->
  Py.strip (make_key cid p sig) = make_key cid p sig.
Proof.
  intros Hc Hp Hs Hx.
  explode cid 4; explode p 4; explode sig 8.
  cbn [forallb] in Hx.
  repeat (apply andb_prop in Hx as [?%upper_hex_not_space Hx]).
  match goal with
  | |- Py.strip ?k = _ =>
      change k with (65 :: removelast (tl k) ++ [last k 0])
  end.
  apply strip_fixed; [reflexivity|assumption].
Qed.

(** What [validate_key] answers on a key whose normalized form is made
    of three fields of the right lengths. *)
Lemma validate_key_fields (key m cid p sig : str) :
  Py.strip (upper key) = make_key cid p sig ->
  length cid = 4%nat -> length p = 4%nat -> length sig = 8%nat ->
  validate_key table key m
  = let machine_id := Py.strip (upper m) in
    if negb (Py.str_eqb p (firstn 4 machine_id)) then
      Ok (false, msg_machine p machine_id)
    else
      match compute_signature table cid machine_id with
      | Raise e => Raise e
      | Ok expected =>
          if negb (Py.str_eqb sig expected) then
            Ok (false, msg_signature expected sig)
          else Ok (true, msg_valid machine_id cid)
      end.
Proof.
  intros Hk Hc Hp Hs.
  rewrite validate_key_refines; unfold validate_key_spec; rewrite Hk.
  generalize (Py.strip (upper m)) as machine_id; intros machine_id.
  explode cid 4; explode p 4; explode sig 8.
  reflexivity.
Qed.

Lemma generated_key_normal (c m sig : str) :
  (4 <= length (upper m))%nat ->
  length sig = 8%nat -> forallb upper_hex sig = true ->
  let k := make_key (cid_of c) (firstn 4 (upper m)) sig in
  Py.strip (upper k) = k.
Proof.
  intros Hm Hs Hx k; unfold k.
  rewrite fixed_make_key;
    [|apply fixed_cid|apply Forall_take, fixed_upper|assumption].
  apply strip_make_key; try assumption;
    [apply cid_length|apply firstn_length_le; assumption].
Qed.

(** X17: when the upper-cased machine id has at least four characters,
    neither starts nor ends with white space, and can be encoded as
    UTF-8 together with the normalized customer id, [generate_key]
    returns a key and [validate_key] accepts it for the same machine
    id, its message naming the machine id and the customer id. *)
Theorem round_trip (c m : str) :
  (4 <= length (upper m))%nat ->
  Py.strip (upper m) = upper m ->
  encodable (cid_of c) = true ->
  encodable (upper m) = true ->
  exists k,
    generate_key table c m = Ok k
    /\ validate_key table k m = Ok (true, msg_valid (upper m) (cid_of c)).
Proof.
  intros Hlen Hstrip Hc Hm.
  rewrite (generate_key_long table c m Hlen).
  destruct (compute_signature table (cid_of c) (upper m)) as [sig|e] eqn:E.
  2:{ destruct (compute_signature_ok table _ _ Hc Hm); congruence. }
  cbv beta iota delta [bind]; eexists; split; [reflexivity|].
  destruct (compute_signature_shape _ _ _ _ E) as [Hs Hx].
  rewrite (validate_key_fields _ m (cid_of c) (firstn 4 (upper m)) sig);
    [|apply generated_key_normal; assumption|apply cid_length
     |apply firstn_length_le; assumption|assumption].
  cbv zeta; rewrite Hstrip, E, !str_eqb_refl; reflexivity.
Qed.

Lemma upper_length (s : str) : (length s <= length (upper s))%nat.
Proof.
  unfold Py.upper; induction s as [|c s IH]; simpl; [lia|].
  rewrite length_app.
  assert (Py.upper_char table c <> []) as H.
  { unfold Py.upper_char; destruct (N.ltb_spec c 128); [discriminate|].
    apply table_nonempty; assumption. }
  destruct (Py.upper_char table c); [congruence|simpl; lia].
Qed.

Lemma upper_char_space (w : codepoint) :
  Py.isspace w = true -> Py.upper_char table w = [w].
Proof.
  intros Hw; unfold Py.upper_char.
  destruct (N.ltb_spec w 128) as [H|H]; [|apply table_space; assumption].
  f_equal; unfold Py.ascii_upper.
  revert Hw; unfold Py.isspace; cmp; discriminate.
Qed.

(** C10 (amended): [generate_key] does not trim the machine id and
    [validate_key] does.  For a machine id of at least four characters
    that starts with white space, and that can be encoded as UTF-8
    together with the normalized customer id once upper-cased,
    [generate_key] returns a key whose machine prefix starts with that
    white space, and [validate_key] rejects this key for the same
    machine id with the machine-mismatch message. *)
Theorem untrimmed_machine_id (c m' : str) (w : codepoint) :
  let m := w :: m' in
  Py.isspace w = true ->
  (4 <= length m)%nat ->
  encodable (cid_of c) = true ->
  encodable (upper m) = true ->
  exists k,
    generate_key table c m = Ok k
    /\ Py.slice 10 14 k = firstn 4 (upper m)
    /\ nth_error k 10 = Some w
    /\ validate_key table k m
       = Ok (false, msg_machine (firstn 4 (upper m)) (Py.strip (upper m))).
Proof.
  intros m Hw Hlen Hc Hm.
  assert (4 <= length (upper m))%nat as Hlen'
      by (pose proof (upper_length m); lia).
  rewrite (generate_key_long table c m Hlen').
  destruct (compute_signature table (cid_of c) (upper m)) as [sig|e] eqn:E.
  2:{ destruct (compute_signature_ok table _ _ Hc Hm); congruence. }
  cbv beta iota delta [bind]; eexists; split; [reflexivity|].
  destruct (compute_signature_shape _ _ _ _ E) as [Hs Hx].
  pose proof (cid_length table c) as Lc; fold (normal_cid table c) in Lc.
  assert (length (firstn 4 (upper m)) = 4%nat) as Lp
      by (apply firstn_length_le; assumption).
  destruct (make_key_fields (cid_of c) (firstn 4 (upper m)) sig Lc Lp Hs)
    as (_ & _ & _ & _ & _ & _ & F & _).
  split; [exact F|].
  assert (exists t, firstn 4 (upper m) = w :: t) as [t Ht].
  { unfold m, Py.upper; simpl; rewrite (upper_char_space w Hw); simpl; eauto. }
  split.
  { rewrite Ht; clear -Lc.
    destruct (cid_of c) as [|? [|? [|? [|? [|? ?]]]]]; try discriminate.
    reflexivity. }
  rewrite (validate_key_fields _ m (cid_of c) (firstn 4 (upper m)) sig);
    [|apply generated_key_normal; assumption|assumption..].
  cbv zeta.
  replace (Py.str_eqb (firstn 4 (upper m)) (firstn 4 (Py.strip (upper m))))
    with false; [reflexivity|].
  symmetry; apply str_eqb_neq; rewrite Ht; intros Heq.
  pose proof (strip_head (upper m)) as Hh.
  destruct (Py.strip (upper m)) as [|x s']; [discriminate|].
  simpl in Heq; injection Heq as <- _; congruence.
Qed.

End RoundTrip.

(** ** The machine id *)

Lemma match_here_occurs (s g1 g2 : str) :
  Re.match_here s = Some (g1, g2) <-> occurs s [] g1 g2.
Proof.
  unfold occurs, hex4; split.
  - destruct s as [|a [|b [|c [|d [|dash [|e [|f [|g [|h post]]]]]]]]];
      try discriminate.
    unfold Re.match_here.
    destruct (forallb Re.is_hex [a; b; c; d]) eqn:H1; [|discriminate].
    destruct (N.eqb_spec dash 45) as [->|]; [|discriminate].
    destruct (forallb Re.is_hex [e; f; g; h]) eqn:H2; [|discriminate].
    intros H; injection H as <- <-; exists post; auto.
  - intros (post & -> & [L1 H1] & [L2 H2]).
    explode g1 4; explode g2 4.
    unfold Re.match_here; cbn [app].
    rewrite H1, H2; reflexivity.
Qed.

Lemma search_none (s : str) :
  Re.search s = None <-> (forall pre g1 g2, ~ occurs s pre g1 g2).
Proof.
  induction s as [|a s IH].
  - split; [|reflexivity].
    intros _ pre g1 g2 (post & E & [L1 _] & _).
    destruct pre; [destruct g1|]; discriminate.
  - cbn [Re.search].
    destruct (Re.match_here (a :: s)) as [[g1 g2]|] eqn:M.
    + split; [discriminate|intros H; exfalso].
      apply (H [] g1 g2), match_here_occurs; exact M.
    + rewrite IH; split.
      * intros H [|x pre] g1 g2 O.
        -- apply match_here_occurs in O; congruence.
        -- destruct O as (post & E & H1 & H2).
           injection E as -> ->.
           apply (H pre g1 g2); exists post; auto.
      * intros H pre g1 g2 (post & -> & H1 & H2).
        apply (H (a :: pre) g1 g2); exists post; auto.
Qed.

(** [re.search] returns the groups of the leftmost occurrence. *)
Lemma search_some (s g1 g2 : str) :
  Re.search s = Some (g1, g2) ->
  exists pre,
    occurs s pre g1 g2
    /\ forall pre' g1' g2',
        occurs s pre' g1' g2' -> (length pre <= length pre')%nat.
Proof.
  induction s as [|a s IH].
  - discriminate.
  - cbn [Re.search].
    destruct (Re.match_here (a :: s)) as [[h1 h2]|] eqn:M.
    + intros H; injection H as -> ->.
      exists []; split; [apply match_here_occurs; exact M|].
      intros; simpl; lia.
    + intros H; destruct (IH H) as (pre & (post & -> & H1 & H2) & Hmin).
      exists (a :: pre); split; [exists post; auto|].
      intros [|x pre'] g1' g2' O.
      * apply match_here_occurs in O; congruence.
      * destruct O as (post' & E & H1' & H2').
        injection E as -> E.
        simpl; apply le_n_S, (Hmin pre' g1' g2').
        exists post'; auto.
Qed.

Lemma int16_snoc (s : str) (c : codepoint) :
  Re.int16 (s ++ [c]) = 16 * Re.int16 s + Re.hex_value c.
Proof. unfold Re.int16; rewrite fold_left_app; reflexivity. Qed.

Lemma encodable_lit (s : string) : encodable (lit s) = true.
Proof.
  unfold encodable, lit; induction s as [|a s IH]; simpl; [reflexivity|].
  rewrite IH, andb_true_r.
  pose proof (N_ascii_bounded a) as B.
  unfold Py.utf8_char.
  destruct (N.ltb_spec (N_of_ascii a) 128); [reflexivity|].
  destruct (N.ltb_spec (N_of_ascii a) 2048); [reflexivity|lia].
Qed.

Section Fingerprint.

Variable table : codepoint -> str.

Lemma machine_id_eq (computer_name stdout : str) :
  machine_id table computer_name stdout
  = data <- Py.encode_utf8 (fingerprint computer_name stdout) ;;
    Ok (signature_of data).
Proof.
  unfold machine_id.
  destruct (Py.encode_utf8 _) as [data|e];
    cbv beta iota delta [bind]; [|reflexivity].
  f_equal; unfold Py.slice_to, signature_of.
  apply upper_of_lower_hex, forallb_firstn, hexdigest_lower.
Qed.

(** Where the encoding of a string stops. *)
Lemma encode_from_position (s t : str) (pos : nat) :
  encodable s = false ->
  exists p,
    Py.encode_from pos (s ++ t) = Raise (UnicodeEncodeError p)
    /\ (pos <= p < pos + length s)%nat.
Proof.
  revert pos; induction s as [|c s IH]; intros pos; simpl; [discriminate|].
  destruct (Py.utf8_char c) as [bs|]; [|intros _; exists pos; split; [reflexivity|lia]].
  intros H; destruct (IH (S pos) H) as (p & -> & Hp).
  exists p; split; [reflexivity|lia].
Qed.

(** C9 (amended): the fingerprint is the machine name, the volume serial
    in decimal and the tag [AuRa_HW_v2] joined by ['|']; the serial is
    the hexadecimal value of the two groups of the leftmost 4+4 group in
    the output of [vol], and 0 when there is no such group, so that every
    captured output leads to a fingerprint; the machine id is the first
    eight characters of the upper-case hexadecimal MD5 digest of the
    fingerprint, the same for the same fingerprint.  It is not always
    produced: an exception of the call that runs [vol] is not caught, and
    once the output is there the machine id is produced exactly when the
    machine name can be encoded as UTF-8, [UnicodeEncodeError] being
    raised at a character of the name otherwise. *)
Theorem machine_id_derivation (computer_name : str) (run : result str) :
  match run with
  | Raise e => machine_id_generation table computer_name run = Raise e
  | Ok stdout =>
      fingerprint computer_name stdout
      = computer_name ++ lit "|" ++ Py.str_of_int (serial_num stdout)
          ++ lit "|" ++ lit "AuRa_HW_v2"
      /\ match Re.search stdout with
         | Some (g1, g2) =>
             serial_num stdout = Re.int16 (g1 ++ g2)
             /\ exists pre,
                 occurs stdout pre g1 g2
                 /\ forall pre' g1' g2',
                     occurs stdout pre' g1' g2' ->
                     (length pre <= length pre')%nat
         | None =>
             serial_num stdout = 0
             /\ forall pre g1 g2, ~ occurs stdout pre g1 g2
         end
      /\ machine_id_generation table computer_name run
         = machine_id_spec table (fingerprint computer_name stdout)
      /\ (forall name' stdout',
            fingerprint name' stdout' = fingerprint computer_name stdout ->
            machine_id_generation table name' (Ok stdout')
            = machine_id_generation table computer_name run)
      /\ ((exists id, machine_id_generation table computer_name run = Ok id
                      /\ length id = 8%nat /\ forallb upper_hex id = true)
          <-> encodable computer_name = true)
      /\ ((exists pos,
              machine_id_generation table computer_name run
              = Raise (UnicodeEncodeError pos)
              /\ (pos < length computer_name)%nat)
          <-> encodable computer_name = false)
  end.
Proof.
  destruct run as [stdout|e]; [|reflexivity].
  change (machine_id_generation table computer_name (Ok stdout))
    with (machine_id table computer_name stdout).
  split; [reflexivity|].
  split.
  { unfold serial_num.
    destruct (Re.search stdout) as [[g1 g2]|] eqn:S.
    - split; [reflexivity|apply search_some; exact S].
    - split; [reflexivity|apply search_none; exact S]. }
  split.
  { unfold machine_id, machine_id_spec.
    destruct (Py.encode_utf8 _) as [data|e];
      cbv beta iota delta [bind]; [|reflexivity].
    f_equal; unfold Py.slice_to.
    pose proof (hexdigest_lower data) as H.
    destruct (upper_of_lower_hex table _ H) as [-> _].
    destruct (upper_of_lower_hex table _ (forallb_firstn _ 8 _ H)) as [-> _].
    symmetry; apply firstn_map. }
  split.
  { intros name' stdout' E.
    change (machine_id_generation table name' (Ok stdout'))
      with (machine_id table name' stdout').
    unfold machine_id; rewrite E; reflexivity. }
  rewrite machine_id_eq; unfold Py.encode_utf8, fingerprint.
  destruct (encodable computer_name) eqn:En.
  - destruct (encode_from_ok
                (computer_name ++ lit "|"
                   ++ Py.str_of_int (serial_num stdout) ++ lit "|AuRa_HW_v2") 0)
      as [data ->].
    { rewrite !encodable_app, En; unfold Py.str_of_int.
      rewrite !encodable_lit; reflexivity. }
    cbv beta iota delta [bind]; split.
    + split; [reflexivity|intros _].
      eexists; split; [reflexivity|apply signature_of_shape].
    + split; [intros (? & ? & _)|]; discriminate.
  - destruct (encode_from_position computer_name
                (lit "|" ++ Py.str_of_int (serial_num stdout)
                   ++ lit "|AuRa_HW_v2") 0 En)
      as (p & -> & Hp).
    cbv beta iota delta [bind]; split.
    + split; [intros (? & ? & _)|]; discriminate.
    + split; [reflexivity|intros _].
      exists p; split; [reflexivity|lia].
Qed.

End Fingerprint.

(** ** Changing one character of a canonical key *)

Lemma Forall_drop {A} (P : A -> Prop) (n : nat) (l : list A) :
  Forall P l -> Forall P (skipn n l).
Proof.
  intros H; revert n; induction H as [|x l Hx Hl IH]; intros [|n]; simpl;
    auto.
Qed.

Lemma strip_keep (s : str) :
  Py.isspace (hd 32 s) = false -> Py.isspace (last s 32) = false ->
  Py.strip s = s.
Proof.
  destruct s as [|x t]; [reflexivity|]; cbn [hd]; intros Hx Hl.
  destruct t as [|z t].
  - unfold Py.strip, Py.rstrip; cbn; rewrite Hx; cbn; rewrite Hx; reflexivity.
  - destruct (exists_last (l := z :: t)) as (t' & y & E); [discriminate|].
    rewrite E in *.
    change (x :: t' ++ [y]) with ((x :: t') ++ [y]) in Hl.
    rewrite last_last in Hl.
    apply strip_fixed; assumption.
Qed.

Lemma nth_error_replace_at (i : nat) (d : codepoint) (s : str) :
  (i < length s)%nat -> nth_error (replace_at i d s) i = Some d.
Proof.
  intros H; unfold replace_at.
  rewrite nth_error_app2; rewrite firstn_length_le by lia; [|lia].
  rewrite Nat.sub_diag; reflexivity.
Qed.

Lemma upper_replace_at table (i : nat) (d d' : codepoint) (s : str) :
  fixed table s -> Py.upper_char table d = [d'] ->
  Py.upper table (replace_at i d s) = replace_at i d' s.
Proof.
  intros Hs Hd; unfold replace_at.
  rewrite upper_app.
  change (Py.upper table (d :: skipn (S i) s))
    with (Py.upper_char table d ++ Py.upper table (skipn (S i) s)).
  rewrite Hd, !upper_fixed by (apply Forall_take || apply Forall_drop; exact Hs).
  reflexivity.
Qed.

(** In a canonical key (upper case, trimmed, as [generate_key] makes it)
    that is accepted, changing one character outside the customer-id
    field to a character with another, non-blank upper case makes
    [validate_key] return [false]. *)
Lemma single_character_mutation table (k m msg : str) (i : nat)
    (d d' : codepoint) :
  validate_key table k m = Ok (true, msg) ->
  fixed table k -> Py.strip k = k ->
  (i < 23)%nat -> (i < 5 \/ 9 <= i)%nat ->
  Py.upper_char table d = [d'] -> Py.isspace d' = false ->
  nth_error k i <> Some d' ->
  exists msg', validate_key table (replace_at i d k) m = Ok (false, msg').
Proof.
  intros V Hfix Hstrip Hi Hpos Hd Hsp Hne.
  assert (Py.strip (Py.upper table k) = k) as Hk
      by (rewrite upper_fixed; assumption).
  pose proof V as V0.
  apply validate_key_accepts in V0 as [(P & L & _ & _ & Hs) _].
  rewrite Hk in P, L, Hs.
  apply compute_signature_shape in Hs as [_ Hx].
  assert (Py.strip (replace_at i d' k) = replace_at i d' k) as Hst.
  { apply strip_keep; clear V Hfix Hstrip Hk Hne Hd.
    - explode k 23.
      change ((65 =? c) && ((85 =? c0) && ((82 =? c1) && ((65 =? c2)
                && ((45 =? c3) && true)))) = true) in P.
      destruct (N.eqb_spec 65 c); [subst|discriminate P].
      destruct i; [exact Hsp|reflexivity].
    - explode k 23.
      cbn [Py.slice firstn skipn forallb Nat.sub] in Hx.
      do 7 (apply andb_prop in Hx as [_ Hx]).
      apply andb_prop in Hx as [Hx _]; apply upper_hex_not_space in Hx.
      do 22 (destruct i as [|i]; [exact Hx|]).
      destruct i; [exact Hsp|lia]. }
  eapply accepted_key_determined; [exact V| |];
    rewrite (upper_replace_at table i d d' k Hfix Hd), Hst, Hk.
  - intros E; apply Hne; rewrite <- E at 1.
    apply nth_error_replace_at; lia.
  - clear -L Hi Hpos; explode k 23.
    do 23 (destruct i as [|i]; [try reflexivity; exfalso; lia|]).
    exfalso; lia.
Qed.

(** ** Independence of the case table

    The functions look at the case table only through the characters of
    their inputs: two tables that agree there give the same results.  In
    particular a result computed with [caseless] on characters that have
    no upper-case mapping (ASCII, surrogates) is the interpreter's. *)

Lemma upper_agree table table' (s : str) :
  agree table table' s -> Py.upper table s = Py.upper table' s.
Proof.
  unfold Py.upper; induction 1 as [|c s Hc _ IH]; simpl; [reflexivity|].
  rewrite Hc, IH; reflexivity.
Qed.

Lemma agree_ascii table table' (s : str) :
  forallb (fun c => c <? 128) s = true -> agree table table' s.
Proof.
  intros H; apply Forall_forall; intros c Hc.
  rewrite forallb_forall in H; unfold Py.upper_char; rewrite (H c Hc).
  reflexivity.
Qed.

Lemma compute_signature_table table table' (cid mid : str) :
  compute_signature table cid mid = compute_signature table' cid mid.
Proof. rewrite !compute_signature_eq; reflexivity. Qed.

Lemma generate_key_agree table table' (c m : str) :
  agree table table' c -> agree table table' m ->
  generate_key table c m = generate_key table' c m.
Proof.
  intros Hc Hm; unfold generate_key.
  rewrite (upper_agree _ _ c Hc), (upper_agree _ _ m Hm).
  rewrite (compute_signature_table table table'); reflexivity.
Qed.

Lemma validate_key_agree table table' (key m : str) :
  agree table table' key -> agree table table' m ->
  validate_key table key m = validate_key table' key m.
Proof.
  intros Hk Hm; unfold validate_key.
  rewrite (upper_agree _ _ key Hk), (upper_agree _ _ m Hm).
  rewrite (compute_signature_table table table'); reflexivity.
Qed.

(** ** The table [caseless] has the properties assumed of a case table *)

Lemma caseless_stable (c d : codepoint) :
  128 <= c -> In d (caseless c) -> Py.upper_char caseless d = [d].
Proof.
  intros Hc [<-|[]]; unfold Py.upper_char.
  destruct (N.ltb_spec c 128); [lia|reflexivity].
Qed.

Lemma caseless_nonempty (c : codepoint) : 128 <= c -> caseless c <> [].
Proof. discriminate. Qed.

Lemma caseless_space (c : codepoint) :
  128 <= c -> Py.isspace c = true -> caseless c = [c].
Proof. reflexivity. Qed.

(** ** Instances

    Each result above that has hypotheses, at a concrete input. *)

(** The key of customer [0001] on machine [AB12CD34]. *)
Lemma generate_key_shape_witness :
  ((4 <= length (Py.upper caseless (lit "AB12CD34")))%nat
   /\ generate_key caseless (lit "0001") (lit "AB12CD34")
      = Ok (lit "AURA-0001-AB12-F78A950E"))
  /\ (length (lit "AURA-0001-AB12-F78A950E") = 23%nat
      /\ Py.startswith (lit "AURA-0001-AB12-F78A950E") (lit "AURA-") = true
      /\ nth_error (lit "AURA-0001-AB12-F78A950E") 4 = Some 45
      /\ nth_error (lit "AURA-0001-AB12-F78A950E") 9 = Some 45
      /\ nth_error (lit "AURA-0001-AB12-F78A950E") 14 = Some 45).
Proof.
  assert ((4 <= length (Py.upper caseless (lit "AB12CD34")))%nat) as H1
      by (vm_compute; lia).
  assert (generate_key caseless (lit "0001") (lit "AB12CD34")
          = Ok (lit "AURA-0001-AB12-F78A950E")) as H2
      by (vm_compute; reflexivity).
  split; [split; assumption|].
  exact (generate_key_shape caseless (lit "0001") (lit "AB12CD34")
           (lit "AURA-0001-AB12-F78A950E") H1 H2).
Defined.

(** A customer id of five characters is cut after the fourth. *)
Lemma generate_key_customer_field_witness :
  generate_key caseless (lit "12345") (lit "AB12CD34")
  = Ok (lit "AURA-1234-AB12-68980BF0")
  /\ Py.slice 5 9 (lit "AURA-1234-AB12-68980BF0")
     = normal_cid caseless (lit "12345").
Proof.
  assert (generate_key caseless (lit "12345") (lit "AB12CD34")
          = Ok (lit "AURA-1234-AB12-68980BF0")) as H
      by (vm_compute; reflexivity).
  split; [exact H|].
  exact (proj1 (generate_key_customer_field caseless (lit "12345")
                  (lit "AB12CD34") (lit "AURA-1234-AB12-68980BF0") H)).
Defined.

(** The customer number of an accepted key changed from [0001] to
    [0002], a customer with another signature: the key is rejected. *)
Lemma valid_key_mutation_witness :
  (validate_key caseless (lit "AURA-0001-AB12-F78A950E") (lit "AB12CD34")
   = Ok (true, lit "Key gueltig fuer Machine AB12CD34 (Kunde: 0001)")
   /\ Py.strip (Py.upper caseless (lit "AURA-0002-AB12-F78A950E"))
      <> Py.strip (Py.upper caseless (lit "AURA-0001-AB12-F78A950E")))
  /\ exists msg',
      validate_key caseless (lit "AURA-0002-AB12-F78A950E") (lit "AB12CD34")
      = Ok (false, msg').
Proof.
  assert (validate_key caseless (lit "AURA-0001-AB12-F78A950E") (lit "AB12CD34")
          = Ok (true, lit "Key gueltig fuer Machine AB12CD34 (Kunde: 0001)"))
    as H1 by (vm_compute; reflexivity).
  assert (Py.strip (Py.upper caseless (lit "AURA-0002-AB12-F78A950E"))
          <> Py.strip (Py.upper caseless (lit "AURA-0001-AB12-F78A950E")))
    as H2 by (vm_compute; discriminate).
  split; [auto|].
  assert ((8 < 23)%nat) as H3 by lia.
  assert (Py.strip (Py.upper caseless (lit "AURA-0002-AB12-F78A950E"))
          = replace_at 8 50
              (Py.strip (Py.upper caseless (lit "AURA-0001-AB12-F78A950E"))))
    as H4 by (vm_compute; reflexivity).
  apply (proj2 (proj2 (proj2 (proj2 (proj2
           (valid_key_mutation caseless _ _ _ _ H1 H2)))) 8%nat 50 H3 H4)).
  right; split; [vm_compute; reflexivity|vm_compute; discriminate].
Defined.

(** A machine id typed in lower case. *)
Lemma round_trip_witness :
  ((4 <= length (Py.upper caseless (lit "ab12cd34")))%nat
   /\ Py.strip (Py.upper caseless (lit "ab12cd34"))
      = Py.upper caseless (lit "ab12cd34")
   /\ encodable (normal_cid caseless (lit "0001")) = true
   /\ encodable (Py.upper caseless (lit "ab12cd34")) = true)
  /\ exists k,
      generate_key caseless (lit "0001") (lit "ab12cd34") = Ok k
      /\ validate_key caseless k (lit "ab12cd34")
         = Ok (true, msg_valid (Py.upper caseless (lit "ab12cd34"))
                       (normal_cid caseless (lit "0001"))).
Proof.
  assert ((4 <= length (Py.upper caseless (lit "ab12cd34")))%nat) as H1
      by (vm_compute; lia).
  assert (Py.strip (Py.upper caseless (lit "ab12cd34"))
          = Py.upper caseless (lit "ab12cd34")) as H2
      by (vm_compute; reflexivity).
  assert (encodable (normal_cid caseless (lit "0001")) = true) as H3
      by (vm_compute; reflexivity).
  assert (encodable (Py.upper caseless (lit "ab12cd34")) = true) as H4
      by (vm_compute; reflexivity).
  split; [auto|].
  exact (round_trip caseless caseless_stable (lit "0001") (lit "ab12cd34")
           H1 H2 H3 H4).
Defined.

(** A machine id typed with a blank in front. *)
Lemma untrimmed_machine_id_witness :
  (Py.isspace 32 = true
   /\ (4 <= length (32%N :: lit "AB12CD34"))%nat
   /\ encodable (normal_cid caseless (lit "0001")) = true
   /\ encodable (Py.upper caseless (32 :: lit "AB12CD34")) = true)
  /\ exists k,
      generate_key caseless (lit "0001") (32 :: lit "AB12CD34") = Ok k
      /\ Py.slice 10 14 k = firstn 4 (Py.upper caseless (32 :: lit "AB12CD34"))
      /\ nth_error k 10 = Some 32
      /\ validate_key caseless k (32 :: lit "AB12CD34")
         = Ok (false,
               msg_machine (firstn 4 (Py.upper caseless (32 :: lit "AB12CD34")))
                 (Py.strip (Py.upper caseless (32 :: lit "AB12CD34")))).
Proof.
  assert (Py.isspace 32 = true) as H1 by reflexivity.
  assert ((4 <= length (32%N :: lit "AB12CD34"))%nat) as H2
      by (vm_compute; lia).
  assert (encodable (normal_cid caseless (lit "0001")) = true) as H3
      by (vm_compute; reflexivity).
  assert (encodable (Py.upper caseless (32 :: lit "AB12CD34")) = true) as H4
      by (vm_compute; reflexivity).
  split; [auto|].
  exact (untrimmed_machine_id caseless caseless_stable caseless_nonempty
           caseless_space (lit "0001") (lit "AB12CD34") 32 H1 H2 H3 H4).
Defined.

(** ** Inputs on which the statements of the specification fail *)

(** C1: the round trip fails on a machine id typed with a blank in
    front.  [generate_key] keeps the blank, [validate_key] trims it away:
    the key is made, with the blank in its machine prefix, and is
    rejected for the same machine id; the single-key mode of [main]
    prints the key and, below it, the rejection by its own check. *)
Theorem round_trip_untrimmed :
  (4 <= length (Py.upper caseless (lit " AB12CD34")))%nat
  /\ generate_key caseless (lit "0001") (lit " AB12CD34")
     = Ok (lit "AURA-0001- AB1-0E9E3556")
  /\ validate_key caseless (lit "AURA-0001- AB1-0E9E3556") (lit " AB12CD34")
     = Ok (false, lit "Machine-ID stimmt nicht ( AB1 != AB12)")
  /\ main caseless {| machine := Some (lit " AB12CD34");
                      customer := lit "0001";
                      batch := None;
                      validate := None;
                      start := 1%Z |}
     = ([ [10] ++ lit "Generierter Key: AURA-0001- AB1-0E9E3556";
          lit "  Kunde:      0001";
          lit "  Machine:     AB12CD34";
          lit "  Key-Laenge: 23";
          lit "  Validierung: Machine-ID stimmt nicht ( AB1 != AB12)" ],
        SystemExit 0).
Proof.
  split; [vm_compute; lia|]; repeat split; vm_compute; reflexivity.
Qed.

(** The same with a blank at the end: the key is made over the untrimmed
    machine id and fails the signature check. *)
Lemma round_trip_trailing_blank :
  generate_key caseless (lit "0001") (lit "AB12CD34 ")
  = Ok (lit "AURA-0001-AB12-F0A307E9")
  /\ validate_key caseless (lit "AURA-0001-AB12-F0A307E9") (lit "AB12CD34 ")
     = Ok (false,
           lit "Signatur ungueltig (erwartet F78A950E, erhalten F0A307E9)").
Proof. split; vm_compute; reflexivity. Qed.

(** C5: a customer id holding a lone surrogate with a machine id of eight
    characters; [generate_key] does not return, the encoding fails at
    index 35 of the signature input. *)
Lemma generate_key_counterexample :
  (4 <= length (Py.upper caseless (lit "AB12CD34")))%nat
  /\ generate_key caseless [0xD800] (lit "AB12CD34")
     = Raise (UnicodeEncodeError 35).
Proof. split; [vm_compute; lia|vm_compute; reflexivity]. Qed.

(** C6: a well-formed key for the machine whose customer-id field holds a
    lone surrogate; [validate_key] raises. *)
Lemma validate_key_counterexample :
  validate_key caseless (lit "AURA-" ++ [0xDC80] ++ lit "BCD-AB12-00000000")
    (lit "AB12CD34")
  = Raise (UnicodeEncodeError 35).
Proof. vm_compute; reflexivity. Qed.

(** C8: the customers [9WJ1] and [9WJV] have the same signature on the
    machine [123A789D]; changing the character at index 8 of the accepted
    key from [1] to [V] gives another accepted key. *)
Lemma mutation_counterexample :
  validate_key caseless (lit "AURA-9WJ1-123A-745CF6D5") (lit "123A789D")
  = Ok (true, lit "Key gueltig fuer Machine 123A789D (Kunde: 9WJ1)")
  /\ nth_error (lit "AURA-9WJ1-123A-745CF6D5") 8 = Some 49
  /\ Py.upper_char caseless 86 <> Py.upper_char caseless 49
  /\ replace_at 8 86 (lit "AURA-9WJ1-123A-745CF6D5")
     = lit "AURA-9WJV-123A-745CF6D5"
  /\ validate_key caseless (replace_at 8 86 (lit "AURA-9WJ1-123A-745CF6D5"))
       (lit "123A789D")
     = Ok (true, lit "Key gueltig fuer Machine 123A789D (Kunde: 9WJV)").
Proof.
  split; [vm_compute; reflexivity|].
  split; [reflexivity|].
  split; [vm_compute; discriminate|].
  split; vm_compute; reflexivity.
Qed.

(** The same claim also fails on white space that is trimmed away. *)
Lemma mutation_of_trimmed_blank :
  validate_key caseless (lit " AURA-0001-AB12-F78A950E") (lit "AB12CD34")
  = Ok (true, lit "Key gueltig fuer Machine AB12CD34 (Kunde: 0001)")
  /\ validate_key caseless (replace_at 0 9 (lit " AURA-0001-AB12-F78A950E"))
       (lit "AB12CD34")
     = Ok (true, lit "Key gueltig fuer Machine AB12CD34 (Kunde: 0001)").
Proof. split; vm_compute; reflexivity. Qed.

(** And a character of the customer-id field changed to a lone
    surrogate makes [validate_key] raise. *)
Lemma mutation_to_surrogate :
  validate_key caseless
    (replace_at 8 0xDC80 (lit "AURA-0001-AB12-F78A950E")) (lit "AB12CD34")
  = Raise (UnicodeEncodeError 38).
Proof. vm_compute; reflexivity. Qed.

(** C9: no machine id is produced where the [vol] command cannot be
    started (the program [cmd] is missing), nor for a machine name that
    holds a lone surrogate, whatever [vol] prints. *)
Lemma machine_id_counterexample :
  machine_id_generation caseless (lit "DESKTOP-7Q2") (Raise FileNotFoundError)
  = Raise FileNotFoundError
  /\ machine_id_generation caseless (lit "PC-" ++ [0xDC80])
       (Ok (lit " Volume Serial Number is 1A2B-3C4D"))
     = Raise (UnicodeEncodeError 3).
Proof. split; vm_compute; reflexivity. Qed.

(** C10: a machine id that starts with a blank and holds a lone
    surrogate; [generate_key] does not return. *)
Lemma untrimmed_counterexample :
  Py.isspace 32 = true
  /\ (4 <= length (32%N :: 0xDC80%N :: lit "BC"))%nat
  /\ generate_key caseless (lit "0001") (32 :: 0xDC80 :: lit "BC")
     = Raise (UnicodeEncodeError 41).
Proof.
  split; [reflexivity|]; split; [vm_compute; lia|vm_compute; reflexivity].
Qed.

(** ** Further properties of the key codec *)

Lemma Forall_lstrip {P : codepoint -> Prop} (s : str) :
  Forall P s -> Forall P (Py.lstrip s).
Proof.
  induction 1 as [|c s Hc Hs IH]; simpl; [constructor|].
  destruct (Py.isspace c); [exact IH|constructor; assumption].
Qed.

Lemma Forall_strip {P : codepoint -> Prop} (s : str) :
  Forall P s -> Forall P (Py.strip s).
Proof.
  intros H; unfold Py.strip, Py.rstrip.
  apply Forall_rev, Forall_lstrip, Forall_rev, Forall_lstrip, H.
Qed.

Lemma strip_last (s : str) :
  Py.strip s = [] \/ Py.isspace (last (Py.strip s) 32) = false.
Proof.
  unfold Py.strip, Py.rstrip.
  pose proof (lstrip_head (rev (Py.lstrip s))) as H.
  destruct (Py.lstrip (rev (Py.lstrip s))) as [|x t]; [left; reflexivity|].
  right; simpl; rewrite last_last; exact H.
Qed.

Lemma strip_idem (s : str) : Py.strip (Py.strip s) = Py.strip s.
Proof.
  destruct (strip_last s) as [E|L]; [rewrite E; reflexivity|].
  pose proof (strip_head s) as H.
  destruct (Py.strip s) as [|x t] eqn:E; [reflexivity|].
  apply strip_keep; assumption.
Qed.

Lemma slice_length (a b : nat) (s : str) :
  (b <= length s)%nat -> length (Py.slice a b s) = (b - a)%nat.
Proof.
  intros H; unfold Py.slice.
  rewrite length_firstn, length_skipn; lia.
Qed.

(** X2: against a machine id that has fewer than four characters once
    upper-cased and trimmed, [validate_key] answers [false] for every
    key, and raises nothing. *)
Theorem validate_key_short_machine table (key m : str) :
  (length (Py.strip (Py.upper table m)) < 4)%nat ->
  exists msg, validate_key table key m = Ok (false, msg).
Proof.
  intros Hm; rewrite validate_key_refines; unfold validate_key_spec.
  generalize dependent (Py.strip (Py.upper table m)); intros M Hm.
  generalize (Py.strip (Py.upper table key)); intros K.
  destruct (negb (Py.startswith K (lit "AURA-"))); [eauto|].
  destruct (Nat.eqb_spec (length K) 23) as [L|L]; cbn [negb]; [|eauto].
  destruct (negb (forallb _ _)); [eauto|].
  destruct (Py.str_eqb (Py.slice 10 14 K) (firstn 4 M)) eqn:E;
    cbn [negb]; [|eauto].
  apply str_eqb_eq in E.
  assert (length (Py.slice 10 14 K) = 4%nat) as L4
      by (rewrite slice_length; lia).
  rewrite E, length_firstn in L4; lia.
Qed.

Section Canonical.

Variable table : codepoint -> str.

Local Abbreviation upper := (Py.upper table).
Local Abbreviation cid_of := (normal_cid table).

(** As before: a character produced by upper-casing is its own upper
    case. *)
Hypothesis table_stable :
  forall c d, 128 <= c -> In d (table c) -> Py.upper_char table d = [d].

Lemma fixed_normal (s : str) : fixed table (Py.strip (upper s)).
Proof. apply Forall_strip, fixed_upper; exact table_stable. Qed.

Lemma normal_idem (s : str) :
  Py.strip (upper (Py.strip (upper s))) = Py.strip (upper s).
Proof. rewrite (upper_fixed table _ (fixed_normal s)); apply strip_idem. Qed.

Lemma validate_key_normalized (key m : str) :
  validate_key table (Py.strip (upper key)) (Py.strip (upper m))
  = validate_key table key m.
Proof.
  rewrite !validate_key_refines; unfold validate_key_spec.
  rewrite !normal_idem; reflexivity.
Qed.

(** X4: [validate_key] looks at a key and a machine id only through their
    upper-cased and trimmed forms: it gives the same answer, message
    included, on these forms as on the strings as typed, so case and
    surrounding white space never matter. *)
Theorem validate_key_normal_form (key m : str) :
  validate_key table (Py.strip (upper key)) (Py.strip (upper m))
  = validate_key table key m.
Proof. exact (validate_key_normalized key m). Qed.

Lemma normal_cid_fixed (cid : str) :
  fixed table cid -> length cid = 4%nat -> cid_of cid = cid.
Proof.
  intros F L; unfold normal_cid, Py.slice_to, Py.ljust.
  rewrite (upper_fixed table cid F), L.
  change (repeat 32 (4 - 4)) with (@nil codepoint).
  rewrite app_nil_r; apply firstn_all2; lia.
Qed.

(** X1: [validate_key] accepts exactly the keys [generate_key] makes: a
    key is accepted for a machine id if and only if its normalized form
    is what [generate_key] returns for the customer id it embeds and the
    normalized machine id. *)
Theorem accepted_iff_generated (key m : str) :
  let k := Py.strip (upper key) in
  let machine_id := Py.strip (upper m) in
  (exists msg, validate_key table key m = Ok (true, msg))
  <-> generate_key table (Py.slice 5 9 k) machine_id = Ok k.
Proof.
  intros k machine_id.
  assert (fixed table k) as Fk by apply fixed_normal.
  assert (fixed table machine_id) as Fm by apply fixed_normal.
  assert (upper machine_id = machine_id) as Um by (apply upper_fixed, Fm).
  assert (fixed table (Py.slice 5 9 k)) as Fc
      by (apply Forall_take, Forall_drop, Fk).
  split.
  - intros [msg V].
    apply validate_key_accepts in V as [(P & L & (S1 & S2 & S3) & Hp & Hs) _].
    fold k machine_id in P, L, S1, S2, S3, Hp, Hs.
    assert (length (Py.slice 5 9 k) = 4%nat) as Lc
        by (rewrite slice_length; lia).
    assert (4 <= length machine_id)%nat as Lm.
    { assert (length (Py.slice 10 14 k) = 4%nat) as L4
          by (rewrite slice_length; lia).
      rewrite Hp, length_firstn in L4; lia. }
    rewrite generate_key_long by (rewrite Um; exact Lm).
    rewrite (normal_cid_fixed _ Fc Lc), Um, Hs.
    cbv beta iota delta [bind]; f_equal.
    rewrite <- Hp; symmetry; apply key_decompose; assumption.
  - intros G.
    assert (4 <= length (upper machine_id))%nat as Lm.
    { destruct (Nat.lt_ge_cases (length (upper machine_id)) 4) as [Hs|Hl];
        [|exact Hl].
      destruct (generate_key_short table (Py.slice 5 9 k) machine_id Hs);
        congruence. }
    rewrite (generate_key_long _ _ _ Lm), Um in G.
    destruct (compute_signature table (cid_of (Py.slice 5 9 k)) machine_id)
      as [sig|e] eqn:E; cbv beta iota delta [bind] in G; [|discriminate].
    assert (make_key (cid_of (Py.slice 5 9 k)) (firstn 4 machine_id) sig = k)
      as G' by congruence.
    clear G; rename G' into G.
    destruct (compute_signature_shape _ _ _ _ E) as [Ls Hx].
    pose proof (cid_length table (Py.slice 5 9 k)) as Lc.
    fold (normal_cid table (Py.slice 5 9 k)) in Lc.
    assert (length (firstn 4 machine_id) = 4%nat) as Lp
        by (apply firstn_length_le; rewrite <- Um; exact Lm).
    assert (validate_key table k m
            = Ok (true, msg_valid machine_id (cid_of (Py.slice 5 9 k)))) as V.
    { rewrite (validate_key_fields table k m (cid_of (Py.slice 5 9 k))
                 (firstn 4 machine_id) sig); try assumption.
      - cbv zeta; fold machine_id; rewrite E, !str_eqb_refl; reflexivity.
      - unfold k at 1; rewrite normal_idem; fold k; symmetry; exact G. }
    exists (msg_valid machine_id (cid_of (Py.slice 5 9 k))).
    rewrite <- validate_key_normalized.
    rewrite <- validate_key_normalized in V.
    fold k in V |- *; unfold k in V at 1; rewrite normal_idem in V.
    exact V.
Qed.

(** X3: a key made for one machine id and checked against a machine id
    whose first four characters, once normalized, are others, is rejected
    with the machine-mismatch message, before any signature is
    computed. *)
Theorem other_machine_rejected (c m1 m2 k : str) :
  generate_key table c m1 = Ok k ->
  firstn 4 (Py.strip (upper m2)) <> firstn 4 (upper m1) ->
  validate_key table k m2
  = Ok (false, msg_machine (firstn 4 (upper m1)) (Py.strip (upper m2))).
Proof.
  intros G Hne.
  assert (4 <= length (upper m1))%nat as Lm.
  { destruct (Nat.lt_ge_cases (length (upper m1)) 4) as [Hs|Hl]; [|exact Hl].
    destruct (generate_key_short table c m1 Hs); congruence. }
  rewrite (generate_key_long _ _ _ Lm) in G.
  destruct (compute_signature table (cid_of c) (upper m1)) as [sig|e] eqn:E;
    cbv beta iota delta [bind] in G; [|discriminate].
  injection G as <-.
  destruct (compute_signature_shape _ _ _ _ E) as [Ls Hx].
  rewrite (validate_key_fields table _ m2 (cid_of c) (firstn 4 (upper m1)) sig);
    [|apply generated_key_normal; assumption|apply cid_length
     |apply firstn_length_le; assumption|assumption].
  cbv zeta.
  replace (Py.str_eqb (firstn 4 (upper m1)) (firstn 4 (Py.strip (upper m2))))
    with false; [reflexivity|].
  symmetry; apply str_eqb_neq; congruence.
Qed.

(** X5: the machine ids the fingerprint derivation produces always work
    with the key codec: for such an id and any customer id whose
    normalized form can be encoded, [generate_key] returns a key and
    [validate_key] accepts it for that id. *)
Theorem derived_machine_id_round_trip (computer_name stdout mid c : str) :
  machine_id table computer_name stdout = Ok mid ->
  encodable (cid_of c) = true ->
  exists k,
    generate_key table c mid = Ok k
    /\ validate_key table k mid = Ok (true, msg_valid mid (cid_of c)).
Proof.
  intros M Hc.
  rewrite machine_id_eq in M.
  destruct (Py.encode_utf8 _) as [data|e]; cbv beta iota delta [bind] in M;
    [|discriminate].
  injection M as <-.
  destruct (signature_of_shape data) as [L8 Hx].
  set (mid := signature_of data) in *.
  assert (forallb plain mid = true) as Pm
      by (revert Hx; apply forallb_impl; exact upper_hex_plain).
  assert (upper mid = mid) as Um by (apply upper_plain; exact Pm).
  assert (Py.strip mid = mid) as Sm.
  { clear -L8 Hx; explode mid 8; cbn [forallb] in Hx.
    repeat (apply andb_prop in Hx as [?%upper_hex_not_space Hx]).
    apply strip_keep; assumption. }
  assert (encodable mid = true) as Em.
  { revert Pm; apply forallb_impl; intros x Hx'.
    unfold plain in Hx'; apply andb_prop in Hx' as [Hx' _].
    unfold Py.utf8_char; rewrite Hx'; reflexivity. }
  assert (4 <= length (upper mid))%nat as Lm by (rewrite Um, L8; lia).
  rewrite (generate_key_long _ _ _ Lm), Um.
  destruct (compute_signature_ok table _ _ Hc Em) as [d E]; rewrite E.
  cbv beta iota delta [bind]; eexists; split; [reflexivity|].
  destruct (signature_of_shape d) as [Ls Hs].
  pose proof (generated_key_normal table table_stable c mid (signature_of d)
                Lm Ls Hs) as Nk.
  cbv zeta in Nk; rewrite Um in Nk.
  rewrite (validate_key_fields table _ mid (cid_of c) (firstn 4 mid)
             (signature_of d));
    [|exact Nk|apply cid_length|apply firstn_length_le; lia|assumption].
  cbv zeta; rewrite Um, Sm, E, !str_eqb_refl; reflexivity.
Qed.

(** X15: a key [generate_key] returns is in canonical form: upper-casing
    and trimming, the normalization of [validate_key], leave it as it
    is. *)
Theorem generated_key_canonical (c m k : str) :
  generate_key table c m = Ok k -> Py.strip (upper k) = k.
Proof.
  intros G.
  assert (4 <= length (upper m))%nat as Lm.
  { destruct (Nat.lt_ge_cases (length (upper m)) 4) as [Hs|Hl]; [|exact Hl].
    destruct (generate_key_short table c m Hs); congruence. }
  rewrite (generate_key_long _ _ _ Lm) in G.
  destruct (compute_signature table (cid_of c) (upper m)) as [sig|e] eqn:E;
    cbv beta iota delta [bind] in G; [|discriminate].
  assert (make_key (cid_of c) (firstn 4 (upper m)) sig = k) as <-
      by congruence.
  destruct (compute_signature_shape _ _ _ _ E) as [Ls Hx].
  apply generated_key_normal; assumption.
Qed.

(** X16: [generate_key] ignores the case of both arguments: it returns
    for the upper-cased customer id and machine id what it returns for
    them as typed, key or exception. *)
Theorem generate_key_ignores_case (c m : str) :
  generate_key table (upper c) (upper m) = generate_key table c m.
Proof.
  unfold generate_key.
  rewrite !(upper_fixed table (upper _))
    by (apply fixed_upper; exact table_stable).
  reflexivity.
Qed.

End Canonical.

(** ** Further properties of the machine id *)

Lemma hex_value_bound (c : codepoint) :
  Re.is_hex c = true -> Re.hex_value c < 16.
Proof. unfold Re.is_hex, Re.hex_value; cmp; discriminate. Qed.

(** X6: the volume serial is a number of at most 32 bits. *)
Theorem serial_num_bound (stdout : str) : serial_num stdout < 2 ^ 32.
Proof.
  unfold serial_num.
  destruct (Re.search stdout) as [[g1 g2]|] eqn:S; [|reflexivity].
  apply search_some in S as (pre & (post & _ & [L1 H1] & [L2 H2]) & _).
  explode g1 4; explode g2 4.
  cbn [forallb] in H1, H2.
  repeat match goal with
         | H : _ && _ = true |- _ => apply andb_prop in H as [?%hex_value_bound H]
         end.
  unfold Re.int16; cbn [app fold_left].
  change (2 ^ 32) with 4294967296; lia.
Qed.

Lemma lit_inj (s t : string) : lit s = lit t -> s = t.
Proof.
  unfold lit; revert t; induction s as [|a s IH]; intros [|b t]; simpl;
    try discriminate; [reflexivity|].
  intros H; injection H as Hab Hst.
  apply (f_equal ascii_of_N) in Hab; rewrite !ascii_N_embedding in Hab.
  rewrite Hab, (IH t Hst); reflexivity.
Qed.

Lemma to_uint_not_nil (n : N) : N.to_uint n <> Decimal.Nil.
Proof.
  intros H.
  assert (n = 0) as ->
      by (rewrite <- (DecimalN.Unsigned.of_to n), H; reflexivity).
  discriminate H.
Qed.

Lemma str_of_int_inj (a b : N) : Py.str_of_int a = Py.str_of_int b -> a = b.
Proof.
  unfold Py.str_of_int; intros H; apply lit_inj in H.
  apply (f_equal NilZero.uint_of_string) in H.
  rewrite !NilZero.usu in H by apply to_uint_not_nil.
  injection H as H; apply (f_equal N.of_uint) in H.
  rewrite !DecimalN.Unsigned.of_to in H; exact H.
Qed.

Lemma string_of_uint_digits (d : Decimal.uint) :
  forallb digit (lit (NilEmpty.string_of_uint d)) = true.
Proof. induction d; simpl; auto. Qed.

Lemma str_of_int_digits (n : N) : forallb digit (Py.str_of_int n) = true.
Proof.
  unfold Py.str_of_int, NilZero.string_of_uint.
  destruct (N.to_uint n); try apply string_of_uint_digits; reflexivity.
Qed.

Lemma app_sep_unique (x : codepoint) (a b s t : str) :
  ~ In x s -> ~ In x t -> a ++ x :: s = b ++ x :: t -> a = b /\ s = t.
Proof.
  intros Hs Ht E.
  apply (f_equal (@rev _)) in E; rewrite !rev_app_distr in E.
  cbn [rev] in E; rewrite <- !app_assoc in E; cbn [app] in E.
  assert (forall u v p q : str,
             ~ In x u -> ~ In x v -> u ++ x :: p = v ++ x :: q ->
             u = v /\ p = q) as G.
  { induction u as [|c u IH]; intros [|c' v] p q Hu Hv H; simpl in *.
    - injection H as ->; auto.
    - injection H as -> _; tauto.
    - injection H as -> _; tauto.
    - injection H as -> H.
      destruct (IH v p q) as [-> ->]; auto. }
  destruct (G (rev s) (rev t) (rev a) (rev b)) as [E1 E2];
    try (rewrite <- in_rev; assumption); [exact E|].
  apply (f_equal (@rev _)) in E1, E2; rewrite !rev_involutive in E1, E2.
  auto.
Qed.

(** X7: the fingerprint tells machines apart: two fingerprints are equal
    only for the same machine name and the same volume serial. *)
Theorem fingerprint_inj (name1 out1 name2 out2 : str) :
  fingerprint name1 out1 = fingerprint name2 out2 ->
  name1 = name2 /\ serial_num out1 = serial_num out2.
Proof.
  unfold fingerprint; intros E.
  change (lit "|") with [124] in E.
  change (lit "|AuRa_HW_v2") with (124 :: lit "AuRa_HW_v2") in E.
  assert (forall n, ~ In 124 (Py.str_of_int n)) as D.
  { intros n H; pose proof (str_of_int_digits n) as F.
    rewrite forallb_forall in F; specialize (F _ H); discriminate. }
  rewrite !app_assoc in E.
  apply app_sep_unique in E as [E _];
    try (intros H; cbn in H; intuition discriminate).
  rewrite <- !app_assoc in E; cbn [app] in E.
  apply app_sep_unique in E as [-> E]; try apply D.
  split; [reflexivity|apply str_of_int_inj; exact E].
Qed.

(** ** Customer numbers as the batch mode writes them *)

Lemma in_range (a b i : Z) : In i (range a b) <-> (a <= i < b)%Z.
Proof.
  unfold range; rewrite in_map_iff; split.
  - intros (k & <- & Hk); apply in_seq in Hk; lia.
  - intros H; exists (Z.to_nat (i - a)); split; [lia|].
    apply in_seq; lia.
Qed.

Lemma range_length (a b : Z) : length (range a b) = Z.to_nat (b - a).
Proof. unfold range; rewrite length_map, length_seq; reflexivity. Qed.

Lemma digit_plain (c : codepoint) : digit c = true -> plain c = true.
Proof. unfold digit, plain; cmp; discriminate. Qed.

Lemma format_04d_plain (i : Z) : forallb plain (format_04d i) = true.
Proof.
  assert (forallb plain (Py.str_of_int (Z.abs_N i)) = true) as D
      by (apply (forallb_impl digit); [exact digit_plain|apply str_of_int_digits]).
  assert (forall n, forallb plain (repeat 48 n) = true) as R
      by (induction n; simpl; auto).
  unfold format_04d; cbv zeta; destruct (i <? 0)%Z;
    rewrite !forallb_app;
    repeat (apply andb_true_intro; split);
    try apply R; try exact D; reflexivity.
Qed.

Lemma format_04d_length (i : Z) : (4 <= length (format_04d i))%nat.
Proof.
  unfold format_04d; cbv zeta; destruct (i <? 0)%Z;
    rewrite !length_app, repeat_length;
    [change (length (lit "-")) with 1%nat|];
    unfold str, codepoint; lia.
Qed.

Lemma plain_encodable (s : str) : forallb plain s = true -> encodable s = true.
Proof.
  apply forallb_impl; intros x Hx.
  unfold plain in Hx; apply andb_prop in Hx as [Hx _].
  unfold Py.utf8_char; rewrite Hx; reflexivity.
Qed.

Lemma normal_cid_format table (i : Z) :
  normal_cid table (format_04d i) = firstn 4 (format_04d i).
Proof.
  unfold normal_cid, Py.slice_to, Py.ljust.
  rewrite (upper_plain table _ (format_04d_plain i)).
  replace (4 - length (format_04d i))%nat with 0%nat
    by (pose proof (format_04d_length i); lia).
  cbn [repeat]; rewrite app_nil_r; reflexivity.
Qed.

Lemma normal_cid_format_encodable table (i : Z) :
  encodable (normal_cid table (format_04d i)) = true.
Proof.
  rewrite normal_cid_format.
  apply plain_encodable, forallb_firstn, format_04d_plain.
Qed.

(** The decimal digits of a number, from the digits of its tenth. *)
Lemma digits_revapp (x y : Decimal.uint) :
  lit (NilEmpty.string_of_uint (Decimal.revapp x y))
  = lit (NilEmpty.string_of_uint (Decimal.revapp x Decimal.Nil))
      ++ lit (NilEmpty.string_of_uint y).
Proof.
  revert y; induction x as [|x IH|x IH|x IH|x IH|x IH|x IH|x IH|x IH|x IH|x IH];
    intros y; cbn [Decimal.revapp];
    [cbn; reflexivity
    |rewrite IH, (IH (_ Decimal.Nil)), <- app_assoc; reflexivity ..].
Qed.

Lemma str_of_int_pos (n : N) :
  n <> 0 ->
  Py.str_of_int n
  = lit (NilEmpty.string_of_uint (Decimal.rev (Unsigned.to_lu n))).
Proof.
  intros H; unfold Py.str_of_int.
  destruct n as [|p]; [contradiction|].
  change (N.to_uint (N.pos p)) with (Decimal.rev (Unsigned.to_lu (N.pos p))).
  unfold NilZero.string_of_uint.
  destruct (Decimal.rev (Unsigned.to_lu (N.pos p))) eqn:E; try reflexivity.
  exfalso; apply (to_uint_not_nil (N.pos p)); exact E.
Qed.

Lemma str_of_int_digit (r : N) : r < 10 -> Py.str_of_int r = [48 + r].
Proof.
  intros H.
  assert (r = 0 \/ r = 1 \/ r = 2 \/ r = 3 \/ r = 4 \/ r = 5 \/ r = 6
          \/ r = 7 \/ r = 8 \/ r = 9) as C by lia.
  repeat (destruct C as [->|C]; [reflexivity|]); subst; reflexivity.
Qed.

Ltac tenfold_digit :=
  match goal with
  | S : forall k, Unsigned.to_lu (N.succ k) = _,
    T : Unsigned.to_lu (10 * _) = _ |- _ =>
      rewrite ?S, T; cbn [Little.succ];
      unfold Decimal.rev; cbn [Decimal.revapp];
      rewrite digits_revapp; reflexivity
  end.

Lemma str_of_int_tenfold (q r : N) :
  0 < q -> r < 10 ->
  Py.str_of_int (10 * q + r) = Py.str_of_int q ++ [48 + r].
Proof.
  intros Hq Hr.
  rewrite !str_of_int_pos by lia.
  destruct q as [|p]; [lia|].
  assert (forall k, Unsigned.to_lu (N.succ k) = Little.succ (Unsigned.to_lu k))
    as S by apply Unsigned.to_lu_succ.
  pose proof (Unsigned.to_ldec_tenfold p) as T.
  assert (r = 0 \/ r = 1 \/ r = 2 \/ r = 3 \/ r = 4 \/ r = 5 \/ r = 6
          \/ r = 7 \/ r = 8 \/ r = 9) as C by lia.
  destruct C as [ -> | [ -> | [ -> | [ -> | [ -> | [ -> | [ -> | [ -> | [ -> | -> ] ] ] ] ] ] ] ] ].
  - replace (10 * N.pos p + 0) with (10 * N.pos p) by lia; tenfold_digit.
  - replace (10 * N.pos p + 1) with (N.succ (10 * N.pos p)) by lia; tenfold_digit.
  - replace (10 * N.pos p + 2) with (N.succ (N.succ (10 * N.pos p))) by lia; tenfold_digit.
  - replace (10 * N.pos p + 3) with (N.succ (N.succ (N.succ (10 * N.pos p)))) by lia; tenfold_digit.
  - replace (10 * N.pos p + 4) with (N.succ (N.succ (N.succ (N.succ (10 * N.pos p))))) by lia; tenfold_digit.
  - replace (10 * N.pos p + 5) with (N.succ (N.succ (N.succ (N.succ (N.succ (10 * N.pos p)))))) by lia; tenfold_digit.
  - replace (10 * N.pos p + 6) with (N.succ (N.succ (N.succ (N.succ (N.succ (N.succ (10 * N.pos p))))))) by lia; tenfold_digit.
  - replace (10 * N.pos p + 7) with (N.succ (N.succ (N.succ (N.succ (N.succ (N.succ (N.succ (10 * N.pos p)))))))) by lia; tenfold_digit.
  - replace (10 * N.pos p + 8) with (N.succ (N.succ (N.succ (N.succ (N.succ (N.succ (N.succ (N.succ (10 * N.pos p))))))))) by lia; tenfold_digit.
  - replace (10 * N.pos p + 9) with (N.succ (N.succ (N.succ (N.succ (N.succ (N.succ (N.succ (N.succ (N.succ (10 * N.pos p)))))))))) by lia; tenfold_digit.
Qed.

Lemma split10 (n : N) : exists q r, n = 10 * q + r /\ r < 10.
Proof.
  exists (n / 10), (n mod 10); split.
  - apply N.div_mod; discriminate.
  - apply N.mod_lt; discriminate.
Qed.

(** The digits of the numbers below 10000. *)
Lemma str_of_int_cases (n : N) :
  n <= 9999 ->
  exists a b c d,
    a < 10 /\ b < 10 /\ c < 10 /\ d < 10
    /\ n = 1000 * a + 100 * b + 10 * c + d
    /\ Py.str_of_int n
       = if 0 <? a then [48 + a; 48 + b; 48 + c; 48 + d]
         else if 0 <? b then [48 + b; 48 + c; 48 + d]
         else if 0 <? c then [48 + c; 48 + d]
         else [48 + d].
Proof.
  intros H.
  destruct (split10 n) as (q1 & d & -> & Hd).
  destruct (split10 q1) as (q2 & c & -> & Hc).
  destruct (split10 q2) as (a & b & -> & Hb).
  exists a, b, c, d; repeat split; try assumption; try lia.
  destruct (N.ltb_spec 0 a) as [Ha|Ha].
  - rewrite !str_of_int_tenfold by lia.
    rewrite str_of_int_digit by lia; reflexivity.
  - assert (a = 0) as -> by lia.
    destruct (N.ltb_spec 0 b) as [Hb'|Hb'].
    + rewrite !str_of_int_tenfold by lia.
      replace (10 * 0 + b) with b by lia.
      rewrite str_of_int_digit by lia; reflexivity.
    + assert (b = 0) as -> by lia.
      destruct (N.ltb_spec 0 c) as [Hc'|Hc'].
      * rewrite str_of_int_tenfold by lia.
        replace (10 * (10 * 0 + 0) + c) with c by lia.
        rewrite str_of_int_digit by lia; reflexivity.
      * assert (c = 0) as -> by lia.
        replace (10 * (10 * (10 * 0 + 0) + 0) + d) with d by lia.
        apply str_of_int_digit; assumption.
Qed.

(** Numbers written with four characters are read back as they were. *)
Lemma format_04d_small (i : Z) :
  (-999 <= i <= 9999)%Z ->
  length (format_04d i) = 4%nat /\ decimal_value (format_04d i) = i.
Proof.
  intros H.
  destruct (str_of_int_cases (Z.abs_N i)) as (a & b & c & d & A & B & C & D & E & S);
    [lia|].
  assert (Z.of_N (Z.abs_N i) = Z.abs i) as V by apply N2Z.inj_abs_N.
  unfold format_04d; cbv zeta; rewrite S.
  destruct (Z.ltb_spec i 0) as [Hi|Hi];
    destruct (N.ltb_spec 0 a), (N.ltb_spec 0 b), (N.ltb_spec 0 c);
    try lia;
    (split; [reflexivity|]);
    unfold decimal_value;
    cbn [app repeat Nat.sub length lit map list_ascii_of_string N_of_ascii
           N_of_digits fold_left];
    repeat match goal with
           | |- context [N.eqb ?x 45] =>
               destruct (N.eqb_spec x 45); [lia|]
           end;
    cbn [N.eqb Pos.eqb]; lia.
Qed.

(** Of a number of five digits, the first four are kept. *)
Lemma format_04d_five (j d : Z) :
  (1000 <= j <= 9999)%Z -> (0 <= d <= 9)%Z ->
  firstn 4 (format_04d (10 * j + d)) = firstn 4 (format_04d j).
Proof.
  intros Hj Hd.
  assert (length (Py.str_of_int (Z.abs_N j)) = 4%nat) as L.
  { destruct (str_of_int_cases (Z.abs_N j))
      as (a & b & c & e & A & B & C & D & E & S); [lia|].
    rewrite S; destruct (N.ltb_spec 0 a); [reflexivity|lia]. }
  assert (Z.abs_N (10 * j + d) = 10 * Z.abs_N j + Z.abs_N d) as E by lia.
  unfold format_04d; cbv zeta.
  destruct (Z.ltb_spec (10 * j + d) 0); [lia|].
  destruct (Z.ltb_spec j 0); [lia|].
  rewrite E, str_of_int_tenfold by lia.
  rewrite length_app, L; cbn [length Nat.add Nat.sub repeat app].
  rewrite firstn_app, L; cbn [Nat.sub firstn]; rewrite app_nil_r.
  reflexivity.
Qed.

Lemma generate_key_same_cid table (c1 c2 m : str) :
  normal_cid table c1 = normal_cid table c2 ->
  generate_key table c1 m = generate_key table c2 m.
Proof.
  intros E; unfold generate_key.
  fold (normal_cid table c1); fold (normal_cid table c2).
  rewrite E; reflexivity.
Qed.

(** X9: the batch mode writes customer numbers with [04d] and
    [generate_key] keeps four characters: a customer number of five
    digits gets the key of the number made of its first four digits, so
    the customers 10000 to 10009 all get the key of customer 1000. *)
Theorem five_digit_customers_collide table (j d : Z) (m : str) :
  (1000 <= j <= 9999)%Z -> (0 <= d <= 9)%Z ->
  generate_key table (format_04d (10 * j + d)) m
  = generate_key table (format_04d j) m.
Proof.
  intros Hj Hd; apply generate_key_same_cid.
  rewrite !normal_cid_format; apply format_04d_five; assumption.
Qed.

Lemma generate_key_format table (i : Z) (m key : str) :
  generate_key table (format_04d i) m = Ok key ->
  Py.slice 5 9 key = firstn 4 (format_04d i).
Proof.
  intros G.
  assert (4 <= length (Py.upper table m))%nat as Lm.
  { destruct (Nat.lt_ge_cases (length (Py.upper table m)) 4) as [Hs|Hl];
      [|exact Hl].
    destruct (generate_key_short table (format_04d i) m Hs); congruence. }
  rewrite (generate_key_long _ _ _ Lm) in G.
  destruct (compute_signature table _ _) as [sig|e] eqn:E;
    cbv beta iota delta [bind] in G; [|discriminate].
  assert (make_key (normal_cid table (format_04d i))
            (firstn 4 (Py.upper table m)) sig = key) as <- by congruence.
  destruct (compute_signature_shape _ _ _ _ E) as [Ls _].
  destruct (make_key_fields (normal_cid table (format_04d i))
              (firstn 4 (Py.upper table m)) sig)
    as (_ & _ & _ & _ & _ & F & _);
    [apply cid_length|apply firstn_length_le; assumption|assumption|].
  rewrite F; apply normal_cid_format.
Qed.

(** X10: customer numbers that fit in four characters, from -999 to
    9999, never share a key on a machine: equal keys come from equal
    numbers. *)
Theorem four_character_customers_distinct table (i j : Z) (m key : str) :
  (-999 <= i <= 9999)%Z -> (-999 <= j <= 9999)%Z ->
  generate_key table (format_04d i) m = Ok key ->
  generate_key table (format_04d j) m = Ok key ->
  i = j.
Proof.
  intros Hi Hj Gi Gj.
  apply generate_key_format in Gi, Gj.
  destruct (format_04d_small i Hi) as [Li Vi].
  destruct (format_04d_small j Hj) as [Lj Vj].
  rewrite firstn_all2 in Gi, Gj by lia.
  rewrite <- Vi, <- Vj; congruence.
Qed.

(** ** The command line *)

Lemma generate_key_usable table (c m : str) :
  usable table m -> encodable (normal_cid table c) = true ->
  exists key, generate_key table c m = Ok key.
Proof.
  intros [Lm Em] Ec; rewrite (generate_key_long _ _ _ Lm).
  destruct (compute_signature_ok table _ _ Ec Em) as [d ->].
  cbv beta iota delta [bind]; eauto.
Qed.

Lemma generate_key_unusable table (c m : str) :
  ~ usable table m -> exists e, generate_key table c m = Raise e.
Proof.
  intros U.
  destruct (Nat.lt_ge_cases (length (Py.upper table m)) 4) as [Hs|Hl].
  - destruct (generate_key_short table c m Hs) as [msg ->]; eauto.
  - rewrite (generate_key_long _ _ _ Hl).
    destruct (encodable (Py.upper table m)) eqn:Em;
      [exfalso; apply U; split; assumption|].
    destruct (compute_signature_fails table (normal_cid table c)
                (Py.upper table m)) as [p ->];
      [rewrite Em; apply andb_false_r|].
    cbv beta iota delta [bind]; eauto.
Qed.

Lemma generate_key_made table (c m key : str) :
  generate_key table c m = Ok key ->
  (4 <= length (Py.upper table m))%nat
  /\ exists sig,
      compute_signature table (normal_cid table c) (Py.upper table m) = Ok sig
      /\ key = make_key (normal_cid table c) (firstn 4 (Py.upper table m)) sig.
Proof.
  intros G.
  assert (4 <= length (Py.upper table m))%nat as Lm.
  { destruct (Nat.lt_ge_cases (length (Py.upper table m)) 4) as [Hs|Hl];
      [|exact Hl].
    destruct (generate_key_short table c m Hs); congruence. }
  split; [exact Lm|].
  rewrite (generate_key_long _ _ _ Lm) in G.
  destruct (compute_signature table _ _) as [sig|e] eqn:E;
    cbv beta iota delta [bind] in G; [|discriminate].
  exists sig; split; [reflexivity|congruence].
Qed.

(** *** What [print] accepts *)

Lemma print_ok (out : list str) (line : str)
    (next : list str -> list str * ending) :
  encodable line = true -> print out line next = next (out ++ [line]).
Proof.
  intros E; unfold print, Py.encode_utf8.
  destruct (encode_from_ok line 0 E) as [d ->]; reflexivity.
Qed.

Lemma print_raise (out : list str) (line : str)
    (next : list str -> list str * ending) :
  encodable line = false ->
  exists pos, print out line next = (out, Uncaught (UnicodeEncodeError pos)).
Proof.
  intros E; unfold print, Py.encode_utf8.
  destruct (encode_from_raise line 0 E) as [q ->]; eauto.
Qed.

Lemma hex_encodable (s : str) :
  forallb upper_hex s = true -> encodable s = true.
Proof.
  intros H; apply plain_encodable; revert H.
  apply forallb_impl; exact upper_hex_plain.
Qed.

Lemma str_of_int_encodable (n : N) : encodable (Py.str_of_int n) = true.
Proof. unfold Py.str_of_int; apply encodable_lit. Qed.

Lemma str_of_Z_encodable (z : Z) : encodable (str_of_Z z) = true.
Proof.
  unfold str_of_Z; destruct (z <? 0)%Z;
    rewrite ?encodable_app, ?str_of_int_encodable, ?encodable_lit; reflexivity.
Qed.

Lemma encodable_firstn (n : nat) (s : str) :
  encodable s = true -> encodable (firstn n s) = true.
Proof. apply forallb_firstn. Qed.

(** A key [generate_key] returns can be printed, and so can the customer
    id and the machine id it was made from. *)
Lemma generated_key_encodable table (c m key : str) :
  generate_key table c m = Ok key ->
  encodable key = true
  /\ encodable (normal_cid table c) = true
  /\ encodable (Py.upper table m) = true.
Proof.
  intros G; destruct (generate_key_made _ _ _ _ G) as (_ & sig & E & ->).
  destruct (compute_signature_encodable _ _ _ _ E) as [Ec Em].
  destruct (compute_signature_shape _ _ _ _ E) as [_ Hx].
  split; [|split; assumption].
  unfold make_key.
  rewrite !encodable_app, !encodable_lit, Ec, (encodable_firstn 4 _ Em),
    (hex_encodable _ Hx); reflexivity.
Qed.

(** The message of [validate_key] holds nothing but its own text and
    pieces of the two normalized inputs. *)
Lemma message_encodable table (key m : str) (b : bool) (msg : str) :
  encodable (Py.strip (Py.upper table key)) = true ->
  encodable (Py.strip (Py.upper table m)) = true ->
  validate_key table key m = Ok (b, msg) ->
  encodable msg = true.
Proof.
  rewrite validate_key_refines; unfold validate_key_spec.
  generalize (Py.strip (Py.upper table key)) as K,
    (Py.strip (Py.upper table m)) as M; intros K M EK EM.
  destruct (negb (Py.startswith K (lit "AURA-")));
    [intros H; injection H as <- <-; reflexivity|].
  destruct (negb (length K =? 23)%nat).
  { intros H; injection H as <- <-; unfold msg_length.
    rewrite !encodable_app, str_of_int_encodable, !encodable_lit;
      reflexivity. }
  destruct (negb (forallb _ _));
    [intros H; injection H as <- <-; reflexivity|].
  destruct (negb (Py.str_eqb _ _)).
  { intros H; injection H as <- <-; unfold msg_machine, Py.slice_to.
    rewrite !encodable_app, !encodable_lit, (encodable_slice 10 14 _ EK),
      (encodable_firstn 4 _ EM); reflexivity. }
  destruct (compute_signature table _ M) as [expected|e] eqn:E;
    [|discriminate].
  destruct (compute_signature_shape _ _ _ _ E) as [_ Hx].
  destruct (negb (Py.str_eqb _ _)); intros H; injection H as <- <-.
  - unfold msg_signature.
    rewrite !encodable_app, !encodable_lit, (hex_encodable _ Hx),
      (encodable_slice 15 23 _ EK); reflexivity.
  - unfold msg_valid.
    rewrite !encodable_app, !encodable_lit, EM, (encodable_slice 5 9 _ EK);
      reflexivity.
Qed.

(** The message of an accepted key can always be printed. *)
Lemma accepted_message_encodable table (key m msg : str) :
  validate_key table key m = Ok (true, msg) -> encodable msg = true.
Proof.
  intros V; apply validate_key_accepts in V as [(_ & _ & _ & _ & E) ->].
  destruct (compute_signature_encodable _ _ _ _ E) as [Ec Em].
  unfold msg_valid.
  rewrite !encodable_app, !encodable_lit, Ec, Em; reflexivity.
Qed.

Lemma batch_line_encodable table (i : Z) (m key : str) :
  generate_key table (format_04d i) m = Ok key ->
  encodable (batch_line i key) = true.
Proof.
  intros G; destruct (generated_key_encodable _ _ _ _ G) as (Ek & _ & _).
  unfold batch_line.
  rewrite !encodable_app, !encodable_lit, Ek,
    (plain_encodable _ (format_04d_plain i)); reflexivity.
Qed.

Lemma batch_loop_ok table (m : str) (customers : list Z) (out : list str) :
  usable table m ->
  exists keys,
    Forall2 (fun i key => generate_key table (format_04d i) m = Ok key)
      customers keys
    /\ batch_loop table m customers out
       = (out ++ map (fun p => batch_line (fst p) (snd p))
                   (combine customers keys),
          SystemExit 0).
Proof.
  intros U; revert out; induction customers as [|i rest IH]; intros out.
  - exists []; split; [constructor|]; simpl; rewrite app_nil_r; reflexivity.
  - destruct (generate_key_usable table (format_04d i) m U
                (normal_cid_format_encodable table i)) as [key G].
    destruct (IH (out ++ [batch_line i key])) as (keys & F & E).
    exists (key :: keys); split; [constructor; assumption|].
    cbn [batch_loop]; rewrite G.
    change (print out (batch_line i key) (batch_loop table m rest)
            = (out ++ map (fun p => batch_line (fst p) (snd p))
                        (combine (i :: rest) (key :: keys)),
               SystemExit 0)).
    rewrite print_ok by (eapply batch_line_encodable; exact G).
    rewrite E, <- app_assoc; reflexivity.
Qed.

(** X8: the batch mode gives all its keys or none.  For a machine id
    [generate_key] can use it prints, after the three header lines, one
    line for each customer number from [start] on, [batch] lines in all,
    each with the key [generate_key] makes for that number, and exits
    with 0.  For a machine id that is too short it stops on the first
    customer with the [ValueError] of [generate_key], having printed the
    header only; with a negative [batch] it prints the header and exits
    with 0 without making a key.  For a machine id that cannot be encoded
    as UTF-8 the second line of the header cannot be printed: the run
    stops there with [UnicodeEncodeError], whatever [batch] is, after the
    first line. *)
Theorem batch_mode table (args : Namespace) (n : Z) (m : str) :
  given (validate args) = None ->
  count (batch args) = Some n ->
  given (machine args) = Some m ->
  let customers := range (start args) (start args + n) in
  length customers = Z.to_nat n
  /\ (usable table m ->
      exists keys,
        Forall2 (fun i key => generate_key table (format_04d i) m = Ok key)
          customers keys
        /\ main table args
           = (batch_header table n m
                ++ map (fun p => batch_line (fst p) (snd p))
                     (combine customers keys),
              SystemExit 0))
  /\ (encodable (Py.upper table m) = true ->
      (length (Py.upper table m) < 4)%nat -> (0 < n)%Z ->
      exists msg,
        main table args = (batch_header table n m, Uncaught (ValueError msg)))
  /\ (encodable (Py.upper table m) = true -> (n < 0)%Z ->
      main table args = (batch_header table n m, SystemExit 0))
  /\ (encodable (Py.upper table m) = false ->
      exists pos,
        main table args
        = ([ [10] ++ rule ], Uncaught (UnicodeEncodeError pos))).
Proof.
  intros Hv Hb Hm customers.
  assert (main table args
          = print [] ([10] ++ rule) (fun out =>
            print out
              (lit "Batch: " ++ str_of_Z n ++ lit " Keys fuer Machine "
                 ++ Py.upper table m) (fun out =>
            print out (rule ++ [10]) (fun out =>
            batch_loop table m customers out)))) as M
      by (unfold main; rewrite Hv, Hb, Hm; reflexivity).
  rewrite (print_ok [] ([10] ++ rule)) in M by reflexivity.
  assert (encodable (Py.upper table m) = true ->
          main table args
          = batch_loop table m customers (batch_header table n m)) as M'.
  { intros Em; rewrite M.
    rewrite print_ok
      by (rewrite !encodable_app, !encodable_lit, str_of_Z_encodable, Em;
          reflexivity).
    rewrite print_ok by reflexivity.
    reflexivity. }
  split; [unfold customers; rewrite range_length; f_equal; lia|].
  split; [|split; [|split]].
  - intros U; rewrite (M' (proj2 U)); apply batch_loop_ok; exact U.
  - intros Em Hs Hn; rewrite (M' Em).
    assert (exists i rest, customers = i :: rest) as (i & rest & ->).
    { assert (length customers <> 0%nat) as L
          by (unfold customers; rewrite range_length; lia).
      destruct customers; [contradiction|eauto]. }
    destruct (generate_key_short table (format_04d i) m Hs) as [msg G].
    exists msg; cbn [batch_loop]; rewrite G; reflexivity.
  - intros Em Hn; rewrite (M' Em).
    assert (customers = []) as ->.
    { assert (length customers = 0%nat) as L
          by (unfold customers; rewrite range_length; lia).
      destruct customers; [reflexivity|discriminate]. }
    reflexivity.
  - intros Em; rewrite M.
    apply print_raise.
    rewrite !encodable_app, Em, !andb_false_r; reflexivity.
Qed.

(** X11: in the validation mode the exit status tells the answer: it is
    0 exactly when [validate_key] accepts the key for the machine id, and
    the line printed then starts with GUELTIG; a rejection is printed
    after UNGUELTIG with the exit status 1, unless its message, which
    quotes the key, cannot be encoded as UTF-8: then nothing is printed
    and [UnicodeEncodeError] escapes.  For a key and a machine id that
    can be encoded the run always prints its one line and exits with 0
    or 1.  Without a machine id the run prints an error and exits with 1
    whatever the key; the only exception that can escape is
    [UnicodeEncodeError], and the interactive mode is never entered. *)
Theorem validate_mode table (args : Namespace) (key : str) :
  given (validate args) = Some key ->
  (given (machine args) = None ->
   main table args
   = ([lit "FEHLER: --machine erforderlich fuer Validierung"], SystemExit 1))
  /\ (forall m, given (machine args) = Some m ->
      (snd (main table args) = SystemExit 0
       <-> exists msg, validate_key table key m = Ok (true, msg))
      /\ (forall msg, validate_key table key m = Ok (true, msg) ->
          main table args = ([lit "GUELTIG: " ++ msg], SystemExit 0))
      /\ (forall msg, validate_key table key m = Ok (false, msg) ->
          if encodable msg
          then main table args = ([lit "UNGUELTIG: " ++ msg], SystemExit 1)
          else exists pos,
                 main table args = ([], Uncaught (UnicodeEncodeError pos)))
      /\ (encodable (Py.upper table key) = true ->
          encodable (Py.upper table m) = true ->
          exists is_valid msg,
            validate_key table key m = Ok (is_valid, msg)
            /\ main table args
               = ([(if is_valid then lit "GUELTIG" else lit "UNGUELTIG")
                     ++ lit ": " ++ msg],
                  SystemExit (if is_valid then 0 else 1)))
      /\ (forall e, snd (main table args) = Uncaught e ->
          exists pos, e = UnicodeEncodeError pos)
      /\ snd (main table args) <> InteractiveMode).
Proof.
  intros Hv; split.
  - intros Hm; unfold main; rewrite Hv, Hm; reflexivity.
  - intros m Hm.
    assert (main table args
            = match validate_key table key m with
              | Raise e => ([], Uncaught e)
              | Ok (is_valid, msg) =>
                  print []
                    ((if is_valid then lit "GUELTIG" else lit "UNGUELTIG")
                       ++ lit ": " ++ msg)
                    (fun out => (out, SystemExit (if is_valid then 0 else 1)))
              end) as M
        by (unfold main; rewrite Hv, Hm; reflexivity).
    assert (forall (b : bool) msg, encodable msg = true ->
            encodable ((if b then lit "GUELTIG" else lit "UNGUELTIG")
                         ++ lit ": " ++ msg) = true) as P.
    { intros b msg E; rewrite !encodable_app, E.
      destruct b; reflexivity. }
    assert (forall msg, encodable msg = false ->
            encodable (lit "UNGUELTIG" ++ lit ": " ++ msg) = false) as Q.
    { intros msg E; rewrite !encodable_app, E; reflexivity. }
    rewrite M.
    destruct (validate_key table key m) as [[[|] msg]|e] eqn:V.
    + rewrite print_ok
        by (apply (P true); eapply accepted_message_encodable; exact V).
      cbn [snd app].
      split; [split; [eauto|reflexivity]|].
      split; [intros msg' E; injection E as <-; reflexivity|].
      split; [intros msg' E; discriminate|].
      split; [intros _ _; exists true, msg; split; reflexivity|].
      split; [intros e E; discriminate|discriminate].
    + destruct (encodable msg) eqn:E.
      * rewrite print_ok by (apply (P false); exact E).
        cbn [snd app].
        split; [split; [discriminate|intros [msg' E']; discriminate]|].
        split; [intros msg' E'; discriminate|].
        split; [intros msg' E'; injection E' as <-; rewrite E; reflexivity|].
        split; [intros _ _; exists false, msg; split; reflexivity|].
        split; [intros e E'; discriminate|discriminate].
      * destruct (print_raise [] _
                    (fun out => (out, SystemExit (if false then 0 else 1)%Z))
                    (Q msg E)) as [pos R].
        rewrite R; cbn [snd].
        split; [split; [discriminate|intros [msg' E']; discriminate]|].
        split; [intros msg' E'; discriminate|].
        split; [intros msg' E'; injection E' as <-; rewrite E; eauto|].
        split.
        { intros Ek Em; exfalso.
          rewrite (message_encodable table key m false msg) in E;
            [discriminate| | |exact V];
            apply encodable_strip; assumption. }
        split; [intros e E'; injection E' as <-; eauto|discriminate].
    + destruct (validate_key_raises _ _ _ _ V) as [pos ->].
      cbn [snd].
      split; [split; [discriminate|intros [msg' E']; discriminate]|].
      split; [intros msg' E'; discriminate|].
      split; [intros msg' E'; discriminate|].
      split.
      { intros Ek Em; exfalso.
        assert (encodable (Py.slice 5 9 (Py.strip (Py.upper table key)))
                && encodable (Py.strip (Py.upper table m)) = false) as En
            by (apply (validate_key_raises_iff table key m); eauto).
        rewrite encodable_slice, encodable_strip in En
          by (try apply encodable_strip; assumption).
        discriminate. }
      split; [intros e E'; injection E' as <-; eauto|discriminate].
Qed.

Lemma given_idem (o : option str) : given (given o) = given o.
Proof. destruct o as [[|c s]|]; reflexivity. Qed.

Lemma count_idem (o : option Z) : count (count o) = count o.
Proof.
  destruct o as [z|]; [|reflexivity]; simpl.
  destruct (Z.eqb_spec z 0) as [->|H]; [reflexivity|]; simpl.
  destruct (Z.eqb_spec z 0); [contradiction|reflexivity].
Qed.

(** X12: options given with a false value count as absent: [main] does
    the same with an empty [--validate], an empty [--machine] or
    [--batch 0] as without them (so [--batch 0] with a machine id makes
    the single key of [--customer]); and without a key to validate and
    without a machine id it prints nothing and enters the interactive
    mode, whatever [--batch], [--customer] and [--start] are. *)
Theorem false_options_are_absent table (args : Namespace) :
  main table args
  = main table {| machine := given (machine args);
                  customer := customer args;
                  batch := count (batch args);
                  validate := given (validate args);
                  start := start args |}
  /\ (given (validate args) = None -> given (machine args) = None ->
      main table args = ([], InteractiveMode)).
Proof.
  split.
  - unfold main; cbn [machine customer batch validate start].
    rewrite !given_idem, count_idem; reflexivity.
  - intros Hv Hm; unfold main; rewrite Hv, Hm.
    destruct (count (batch args)); reflexivity.
Qed.

Section SingleKey.

Variable table : codepoint -> str.

Local Abbreviation upper := (Py.upper table).
Local Abbreviation cid_of := (normal_cid table).

Hypothesis table_stable :
  forall c d, 128 <= c -> In d (table c) -> Py.upper_char table d = [d].

(** Once [generate_key] has returned a key, checking that key against
    the same machine id cannot raise. *)
Lemma self_validation (c m key : str) :
  generate_key table c m = Ok key ->
  exists is_valid msg,
    validate_key table key m = Ok (is_valid, msg)
    /\ (Py.strip (upper m) = upper m -> is_valid = true).
Proof.
  intros G.
  assert (4 <= length (upper m))%nat as Lm.
  { destruct (Nat.lt_ge_cases (length (upper m)) 4) as [Hs|Hl]; [|exact Hl].
    destruct (generate_key_short table c m Hs); congruence. }
  rewrite (generate_key_long _ _ _ Lm) in G.
  destruct (compute_signature table (cid_of c) (upper m)) as [sig|e] eqn:E;
    cbv beta iota delta [bind] in G; [|discriminate].
  assert (make_key (cid_of c) (firstn 4 (upper m)) sig = key) as <-
      by congruence.
  destruct (compute_signature_shape _ _ _ _ E) as [Ls Hx].
  destruct (compute_signature_encodable _ _ _ _ E) as [Ec Em].
  rewrite (validate_key_fields table _ m (cid_of c) (firstn 4 (upper m)) sig);
    [|apply generated_key_normal; assumption|apply cid_length
     |apply firstn_length_le; assumption|assumption].
  cbv zeta.
  destruct (compute_signature_ok table (cid_of c) (Py.strip (upper m)) Ec
              (encodable_strip _ Em)) as [d E'].
  rewrite E'.
  destruct (Py.str_eqb (firstn 4 (upper m)) (firstn 4 (Py.strip (upper m))))
    eqn:P; cbn [negb].
  - destruct (Py.str_eqb sig (signature_of d)) eqn:S; cbn [negb].
    + do 2 eexists; split; [reflexivity|auto].
    + do 2 eexists; split; [reflexivity|].
      intros Hs; rewrite Hs, E in E'.
      apply str_eqb_neq in S; congruence.
  - do 2 eexists; split; [reflexivity|].
    intros Hs; rewrite Hs, str_eqb_refl in P; discriminate.
Qed.

(** The message of that check can be printed. *)
Lemma self_validation_message (c m key : str) (b : bool) (msg : str) :
  generate_key table c m = Ok key ->
  validate_key table key m = Ok (b, msg) ->
  encodable msg = true.
Proof.
  intros G V.
  destruct (generated_key_encodable _ _ _ _ G) as (Ek & _ & Em).
  destruct (generate_key_made _ _ _ _ G) as (Lm & sig & E & K).
  destruct (compute_signature_shape _ _ _ _ E) as [Ls Hx].
  apply (message_encodable table key m b msg); [| |exact V].
  - rewrite K, generated_key_normal by assumption.
    rewrite <- K; exact Ek.
  - apply encodable_strip; exact Em.
Qed.

(** X13: the single-key mode.  When [generate_key] raises, nothing has
    been printed.  When it returns a key, the run prints the key, the
    normalized customer id, the upper-cased machine id, the key length
    23 and the message of [validate_key] for this key, which cannot
    raise, and exits with 0, also when that message is a rejection; the
    key is accepted whenever the upper-cased machine id has no white space
    around it. *)
Theorem single_key_mode (args : Namespace) (m : str) :
  given (validate args) = None ->
  count (batch args) = None ->
  given (machine args) = Some m ->
  match generate_key table (customer args) m with
  | Raise e => main table args = ([], Uncaught e)
  | Ok key =>
      exists is_valid msg,
        validate_key table key m = Ok (is_valid, msg)
        /\ (Py.strip (upper m) = upper m -> is_valid = true)
        /\ main table args
           = ([ [10] ++ lit "Generierter Key: " ++ key;
                lit "  Kunde:      " ++ cid_of (customer args);
                lit "  Machine:    " ++ upper m;
                lit "  Key-Laenge: 23";
                lit "  Validierung: " ++ msg ],
              SystemExit 0)
  end.
Proof.
  intros Hv Hb Hm.
  destruct (generate_key table (customer args) m) as [key|e] eqn:G.
  - destruct (self_validation _ _ _ G) as (b & msg & V & Hb').
    exists b, msg; split; [exact V|split; [exact Hb'|]].
    destruct (generated_key_encodable _ _ _ _ G) as (Ek & Ec & Em).
    pose proof (self_validation_message _ _ _ _ _ G V) as Emsg.
    assert (Py.len key = 23) as L.
    { destruct (generate_key_made _ _ _ _ G) as (Lm & sig & E & ->).
      destruct (compute_signature_shape _ _ _ _ E) as [Ls _].
      destruct (make_key_fields (cid_of (customer args))
                  (firstn 4 (upper m)) sig) as [L _];
        [apply cid_length|apply firstn_length_le; assumption|assumption|].
      unfold Py.len; rewrite L; reflexivity. }
    unfold main; rewrite Hv, Hb, Hm, G, V, L.
    rewrite print_ok
      by (rewrite !encodable_app, encodable_lit, Ek; reflexivity).
    rewrite print_ok
      by (rewrite encodable_app, encodable_lit; exact Ec).
    rewrite print_ok
      by (rewrite encodable_app, encodable_lit; exact Em).
    rewrite print_ok by reflexivity.
    rewrite print_ok
      by (rewrite encodable_app, encodable_lit; exact Emsg).
    reflexivity.
  - unfold main; rewrite Hv, Hb, Hm, G; reflexivity.
Qed.

End SingleKey.

(** ** The test keys of verify_keys.py *)

Lemma secrets_match : cpp_secret = py_secret /\ py_secret = SECRET.
Proof. split; vm_compute; reflexivity. Qed.

Lemma hex_id_normal table (mid : str) :
  length mid = 8%nat -> forallb upper_hex mid = true ->
  forallb plain mid = true /\ Py.upper table mid = mid
  /\ Py.strip mid = mid /\ encodable mid = true.
Proof.
  intros L8 Hx.
  assert (forallb plain mid = true) as Pm
      by (revert Hx; apply forallb_impl; exact upper_hex_plain).
  split; [exact Pm|].
  split; [apply upper_plain; exact Pm|].
  split; [|apply plain_encodable; exact Pm].
  clear Pm; explode mid 8; cbn [forallb] in Hx.
  repeat (apply andb_prop in Hx as [?%upper_hex_not_space Hx]).
  apply strip_keep; assumption.
Qed.

(** X14: the five test keys verify_keys.py prints for the machine id it
    derives are the keys [generate_key] of license_generator.py makes for
    the customers 0001 to 0005 and that machine id, and [validate_key]
    accepts each of them for it. *)
Theorem test_keys_are_valid table (computer_name stdout mid : str) (i : Z) :
  machine_id table computer_name stdout = Ok mid ->
  In i (range 1 6) ->
  test_key table mid i = generate_key table (format_04d i) mid
  /\ exists key,
      test_key table mid i = Ok key
      /\ validate_key table key mid = Ok (true, msg_valid mid (format_04d i)).
Proof.
  intros M Hi; apply in_range in Hi.
  rewrite machine_id_eq in M.
  destruct (Py.encode_utf8 _) as [data|e]; cbv beta iota delta [bind] in M;
    [|discriminate].
  injection M as <-.
  destruct (signature_of_shape data) as [L8 Hx].
  set (mid := signature_of data) in *.
  destruct (hex_id_normal table mid L8 Hx) as (Pm & Um & Sm & Em).
  destruct (format_04d_small i) as [Lc _]; [lia|].
  set (cid := format_04d i) in *.
  assert (forallb plain cid = true) as Pc by apply format_04d_plain.
  assert (normal_cid table cid = cid) as Nc
      by (unfold cid; rewrite normal_cid_format; apply firstn_all2;
          fold cid; lia).
  assert (4 <= length (Py.upper table mid))%nat as Lm by (rewrite Um, L8; lia).
  assert (test_key table mid i
          = sig <- compute_signature table cid mid ;;
            Ok (make_key cid (firstn 4 mid) sig)) as T.
  { unfold test_key, compute_signature; fold cid.
    change py_secret with SECRET.
    destruct (Py.encode_utf8 _); reflexivity. }
  rewrite T, (generate_key_long _ _ _ Lm), Nc, Um.
  split; [reflexivity|].
  destruct (compute_signature_ok table cid mid (plain_encodable _ Pc) Em)
    as [d E]; rewrite E.
  cbv beta iota delta [bind]; eexists; split; [reflexivity|].
  destruct (signature_of_shape d) as [Ls Hs].
  assert (length (firstn 4 mid) = 4%nat) as Lp
      by (apply firstn_length_le; lia).
  rewrite (validate_key_fields table _ mid cid (firstn 4 mid) (signature_of d));
    try assumption.
  - cbv zeta; rewrite Um, Sm, E, !str_eqb_refl; reflexivity.
  - rewrite fixed_make_key;
      [apply strip_make_key; assumption|apply fixed_plain; exact Pc
      |apply fixed_plain, forallb_firstn; exact Pm|exact Hs].
Qed.

(** ** Instances of the further properties *)

(** A key typed in lower case with blanks around it. *)
Lemma accepted_iff_generated_witness :
  (exists msg,
      validate_key caseless (lit " aura-0001-ab12-f78a950e ") (lit "ab12cd34")
      = Ok (true, msg))
  <-> generate_key caseless
        (Py.slice 5 9
           (Py.strip (Py.upper caseless (lit " aura-0001-ab12-f78a950e "))))
        (Py.strip (Py.upper caseless (lit "ab12cd34")))
      = Ok (Py.strip (Py.upper caseless (lit " aura-0001-ab12-f78a950e "))).
Proof.
  exact (accepted_iff_generated caseless caseless_stable
           (lit " aura-0001-ab12-f78a950e ") (lit "ab12cd34")).
Defined.

(** A machine id of two characters against a key in the right format. *)
Lemma validate_key_short_machine_witness :
  (length (Py.strip (Py.upper caseless (lit " ab "))) < 4)%nat
  /\ exists msg,
      validate_key caseless (lit "AURA-0001-AB  -F78A950E") (lit " ab ")
      = Ok (false, msg).
Proof.
  assert ((length (Py.strip (Py.upper caseless (lit " ab "))) < 4)%nat) as H
      by (vm_compute; lia).
  split; [exact H|].
  exact (validate_key_short_machine caseless (lit "AURA-0001-AB  -F78A950E")
           (lit " ab ") H).
Defined.

(** The key of machine AB12CD34 shown to machine AB13CD34. *)
Lemma other_machine_rejected_witness :
  validate_key caseless (lit "AURA-0001-AB12-F78A950E") (lit "ab13cd34")
  = Ok (false,
        msg_machine (firstn 4 (Py.upper caseless (lit "AB12CD34")))
          (Py.strip (Py.upper caseless (lit "ab13cd34")))).
Proof.
  assert (generate_key caseless (lit "0001") (lit "AB12CD34")
          = Ok (lit "AURA-0001-AB12-F78A950E")) as H1
      by (vm_compute; reflexivity).
  assert (firstn 4 (Py.strip (Py.upper caseless (lit "ab13cd34")))
          <> firstn 4 (Py.upper caseless (lit "AB12CD34"))) as H2
      by (vm_compute; discriminate).
  exact (other_machine_rejected caseless caseless_stable (lit "0001")
           (lit "AB12CD34") (lit "ab13cd34") (lit "AURA-0001-AB12-F78A950E")
           H1 H2).
Defined.

Lemma validate_key_normal_form_witness :
  validate_key caseless
    (Py.strip (Py.upper caseless (lit " aura-0001-ab12-f78a950e ")))
    (Py.strip (Py.upper caseless (lit "ab12cd34 ")))
  = validate_key caseless (lit " aura-0001-ab12-f78a950e ") (lit "ab12cd34 ").
Proof.
  exact (validate_key_normal_form caseless caseless_stable
           (lit " aura-0001-ab12-f78a950e ") (lit "ab12cd34 ")).
Defined.

Lemma generated_key_canonical_witness :
  Py.strip (Py.upper caseless (lit "AURA-AB  -AB12-D05AC245"))
  = lit "AURA-AB  -AB12-D05AC245".
Proof.
  assert (generate_key caseless (lit "ab") (lit "ab12cd34")
          = Ok (lit "AURA-AB  -AB12-D05AC245")) as G
      by (vm_compute; reflexivity).
  exact (generated_key_canonical caseless caseless_stable (lit "ab")
           (lit "ab12cd34") (lit "AURA-AB  -AB12-D05AC245") G).
Defined.

Lemma generate_key_ignores_case_witness :
  generate_key caseless (Py.upper caseless (lit "ab"))
    (Py.upper caseless (lit "ab12cd34"))
  = generate_key caseless (lit "ab") (lit "ab12cd34").
Proof.
  exact (generate_key_ignores_case caseless caseless_stable (lit "ab")
           (lit "ab12cd34")).
Defined.

(** The machine id of the machine DESKTOP-7Q2 with serial 1A2B-3C4D. *)
Lemma derived_machine_id_round_trip_witness :
  exists k,
    generate_key caseless (lit "0001") (lit "EDD18506") = Ok k
    /\ validate_key caseless k (lit "EDD18506")
       = Ok (true, msg_valid (lit "EDD18506") (normal_cid caseless (lit "0001"))).
Proof.
  assert (machine_id caseless (lit "DESKTOP-7Q2")
            (lit "Volume Serial Number is 1A2B-3C4D")
          = Ok (lit "EDD18506")) as H1 by (vm_compute; reflexivity).
  assert (encodable (normal_cid caseless (lit "0001")) = true) as H2
      by (vm_compute; reflexivity).
  exact (derived_machine_id_round_trip caseless caseless_stable
           (lit "DESKTOP-7Q2") (lit "Volume Serial Number is 1A2B-3C4D")
           (lit "EDD18506") (lit "0001") H1 H2).
Defined.

(** Two outputs of [vol] that differ and hold the same serial. *)
Lemma fingerprint_inj_witness :
  lit "PC" = lit "PC"
  /\ serial_num (lit "Serial 1a2b-3c4d") = serial_num (lit "1A2B-3C4D ok").
Proof.
  assert (fingerprint (lit "PC") (lit "Serial 1a2b-3c4d")
          = fingerprint (lit "PC") (lit "1A2B-3C4D ok")) as H
      by (vm_compute; reflexivity).
  exact (fingerprint_inj (lit "PC") (lit "Serial 1a2b-3c4d") (lit "PC")
           (lit "1A2B-3C4D ok") H).
Defined.

(** [--machine AB12CD34 --batch 2]. *)
Lemma batch_mode_witness :
  exists keys,
    Forall2 (fun i key =>
               generate_key caseless (format_04d i) (lit "AB12CD34") = Ok key)
      (range 1 (1 + 2)) keys
    /\ main caseless {| machine := Some (lit "AB12CD34");
                        customer := lit "0001";
                        batch := Some 2%Z;
                        validate := None;
                        start := 1%Z |}
       = (batch_header caseless 2 (lit "AB12CD34")
            ++ map (fun p => batch_line (fst p) (snd p))
                 (combine (range 1 (1 + 2)) keys),
          SystemExit 0).
Proof.
  assert (usable caseless (lit "AB12CD34")) as U
      by (split; [vm_compute; lia|vm_compute; reflexivity]).
  exact (proj1 (proj2 (batch_mode caseless
                         {| machine := Some (lit "AB12CD34");
                            customer := lit "0001";
                            batch := Some 2%Z;
                            validate := None;
                            start := 1%Z |}
                         2%Z (lit "AB12CD34") eq_refl eq_refl eq_refl)) U).
Defined.

Lemma five_digit_customers_collide_witness :
  generate_key caseless (format_04d (10 * 1000 + 7)) (lit "AB12CD34")
  = generate_key caseless (format_04d 1000) (lit "AB12CD34").
Proof.
  assert ((1000 <= 1000 <= 9999)%Z) as H1 by lia.
  assert ((0 <= 7 <= 9)%Z) as H2 by lia.
  exact (five_digit_customers_collide caseless 1000 7 (lit "AB12CD34") H1 H2).
Defined.

Lemma four_character_customers_distinct_witness : (-5)%Z = (-5)%Z.
Proof.
  assert ((-999 <= -5 <= 9999)%Z) as H by lia.
  assert (generate_key caseless (format_04d (-5)) (lit "AB12CD34")
          = Ok (lit "AURA--005-AB12-42ED267F")) as G
      by (vm_compute; reflexivity).
  exact (four_character_customers_distinct caseless (-5) (-5) (lit "AB12CD34")
           (lit "AURA--005-AB12-42ED267F") H H G G).
Defined.

(** [--validate AURA-0001-AB12-F78A950E --machine AB12CD34]. *)
Lemma validate_mode_witness :
  main caseless {| machine := Some (lit "AB12CD34");
                   customer := lit "0001";
                   batch := None;
                   validate := Some (lit "AURA-0001-AB12-F78A950E");
                   start := 1%Z |}
  = ([lit "GUELTIG: " ++ lit "Key gueltig fuer Machine AB12CD34 (Kunde: 0001)"],
     SystemExit 0).
Proof.
  assert (validate_key caseless (lit "AURA-0001-AB12-F78A950E") (lit "AB12CD34")
          = Ok (true, lit "Key gueltig fuer Machine AB12CD34 (Kunde: 0001)"))
    as V by (vm_compute; reflexivity).
  exact (proj1 (proj2 (proj2 (validate_mode caseless
                                {| machine := Some (lit "AB12CD34");
                                   customer := lit "0001";
                                   batch := None;
                                   validate := Some (lit "AURA-0001-AB12-F78A950E");
                                   start := 1%Z |}
                                (lit "AURA-0001-AB12-F78A950E") eq_refl)
                         (lit "AB12CD34") eq_refl)) _ V).
Defined.

(** [--machine " AB12CD34"]: the key is printed, the self-validation
    rejects it, the exit status is 0. *)
Lemma single_key_mode_witness :
  exists is_valid msg,
    validate_key caseless (lit "AURA-0001- AB1-0E9E3556") (lit " AB12CD34")
    = Ok (is_valid, msg)
    /\ (Py.strip (Py.upper caseless (lit " AB12CD34"))
        = Py.upper caseless (lit " AB12CD34") -> is_valid = true)
    /\ main caseless {| machine := Some (lit " AB12CD34");
                        customer := lit "0001";
                        batch := Some 0%Z;
                        validate := Some [];
                        start := 1%Z |}
       = ([ [10] ++ lit "Generierter Key: " ++ lit "AURA-0001- AB1-0E9E3556";
            lit "  Kunde:      " ++ normal_cid caseless (lit "0001");
            lit "  Machine:    " ++ Py.upper caseless (lit " AB12CD34");
            lit "  Key-Laenge: 23";
            lit "  Validierung: " ++ msg ],
          SystemExit 0).
Proof.
  pose proof (single_key_mode caseless caseless_stable
                {| machine := Some (lit " AB12CD34");
                   customer := lit "0001";
                   batch := Some 0%Z;
                   validate := Some [];
                   start := 1%Z |}
                (lit " AB12CD34") eq_refl eq_refl eq_refl) as S.
  cbn [customer] in S.
  replace (generate_key caseless (lit "0001") (lit " AB12CD34"))
    with (@Ok str (lit "AURA-0001- AB1-0E9E3556")) in S
    by (vm_compute; reflexivity).
  exact S.
Defined.

Lemma test_keys_are_valid_witness :
  test_key caseless (lit "EDD18506") 3
  = generate_key caseless (format_04d 3) (lit "EDD18506")
  /\ exists key,
      test_key caseless (lit "EDD18506") 3 = Ok key
      /\ validate_key caseless key (lit "EDD18506")
         = Ok (true, msg_valid (lit "EDD18506") (format_04d 3)).
Proof.
  assert (machine_id caseless (lit "DESKTOP-7Q2")
            (lit "Volume Serial Number is 1A2B-3C4D")
          = Ok (lit "EDD18506")) as H1 by (vm_compute; reflexivity).
  assert (In 3%Z (range 1 6)) as H2 by (vm_compute; tauto).
  exact (test_keys_are_valid caseless (lit "DESKTOP-7Q2")
           (lit "Volume Serial Number is 1A2B-3C4D") (lit "EDD18506") 3
           H1 H2).
Defined.

Example format_04d_examples :
  format_04d 0 = lit "0000" /\ format_04d 7 = lit "0007"
  /\ format_04d 12345 = lit "12345" /\ format_04d (-1) = lit "-001"
  /\ format_04d (-12345) = lit "-12345"
  /\ str_of_Z (-10) = lit "-10" /\ range 3 6 = [3; 4; 5]%Z
  /\ range 3 1 = [].
Proof. repeat split; vm_compute; reflexivity. Qed.

(** ** Test vectors *)

Example md5_empty :
  Hashlib.md5_hexdigest [] = lit "d41d8cd98f00b204e9800998ecf8427e".
Proof. vm_compute. reflexivity. Qed.

Example md5_abc :
  Hashlib.md5_hexdigest (map N_of_ascii (list_ascii_of_string "abc"))
  = lit "900150983cd24fb0d6963f7d28e17f72".
Proof. vm_compute. reflexivity. Qed.

Example md5_two_blocks :
  Hashlib.md5_hexdigest (map N_of_ascii (list_ascii_of_string
    "12345678901234567890123456789012345678901234567890123456789012345678901234567890"))
  = lit "57edf4a22be3c955ac49da2e2107b67a".
Proof. vm_compute. reflexivity. Qed.

Example sig_0001 :
  compute_signature caseless (lit "0001") (lit "AB12CD34") = Ok (lit "F78A950E").
Proof. vm_compute. reflexivity. Qed.

Example machine_id_example :
  fingerprint (lit "DESKTOP-7Q2")
    (lit " Volume in drive C is OS  Volume Serial Number is 1A2B-3C4D")
  = lit "DESKTOP-7Q2|439041101|AuRa_HW_v2"
  /\ machine_id caseless (lit "DESKTOP-7Q2")
       (lit " Volume in drive C is OS  Volume Serial Number is 1A2B-3C4D")
     = Ok (lit "EDD18506")
  /\ fingerprint (lit "DESKTOP-7Q2") (lit "no serial here")
     = lit "DESKTOP-7Q2|0|AuRa_HW_v2".
Proof. repeat split; vm_compute; reflexivity. Qed.

Example utf8_examples :
  Py.encode_utf8 [0x41; 0xE9; 0x20AC; 0x1F600]
  = Ok [0x41; 0xC3; 0xA9; 0xE2; 0x82; 0xAC; 0xF0; 0x9F; 0x98; 0x80]
  /\ Py.encode_utf8 [0x41; 0xDC80] = Raise (UnicodeEncodeError 1)
  /\ Hashlib.md5_hexdigest [0x41; 0xC3; 0xA9; 0xE2; 0x82; 0xAC; 0xF0; 0x9F; 0x98; 0x80]
     = lit "7b9527d45ec30d082637842ec0140554".
Proof. repeat split; vm_compute; reflexivity. Qed.

Example strip_examples :
  Py.strip (lit "  aura-0001 ab  ") = lit "aura-0001 ab"
  /\ Py.strip [0xA0; 0x3000; 65; 0x2028] = [65]
  /\ Py.upper caseless (lit "aura-ab12 {z}") = lit "AURA-AB12 {Z}"
  /\ Py.ljust 4 (lit "1") = lit "1   "
  /\ Py.ljust 4 (lit "12345") = lit "12345".
Proof. repeat split; vm_compute; reflexivity. Qed.
